(** * TTB label verification: the decision engine of [src/lib/verification.ts]
      and [src/lib/constraints.ts], embedded and verified.

    Strings are sequences of UTF-16 code units, numbers are IEEE-754 binary64
    values (Rocq's primitive floats), optional fields are [option]s. *)

From Stdlib Require Import ZArith NArith List Bool String Ascii Floats Lia.
From Stdlib Require Import DecimalString.
Import ListNotations.
#[local] Set Warnings "-inexact-float".
#[local] Open Scope list_scope.

(* ===================================================================== *)
(** * The JavaScript values and built-ins the engine relies on            *)
(* ===================================================================== *)

Module JS.
#[local] Open Scope N_scope.

(** A JavaScript string: its UTF-16 code units. *)
Definition jsstring : Type := list N.

(** An ASCII literal as a JavaScript string. *)
Definition js (s : string) : jsstring :=
  List.map N_of_ascii (list_ascii_of_string s).

(** [a === b] on strings. *)
Fixpoint streq (a b : jsstring) : bool :=
  match a, b with
  | [], [] => true
  | x :: a', y :: b' => N.eqb x y && streq a' b'
  | _, _ => false
  end.

(** Truthiness of a [string | undefined]: [undefined] and [""] are falsy. *)
Definition truthy (v : option jsstring) : bool :=
  match v with
  | Some (_ :: _) => true
  | _ => false
  end.

(** [String.prototype.toLowerCase], modelled on Basic Latin and the Latin-1
    Supplement; other code units are left as they are. *)
Definition lower_unit (c : N) : N :=
  if (65 <=? c) && (c <=? 90) then c + 32
  else if (192 <=? c) && (c <=? 222) && negb (c =? 215) then c + 32
  else c.

Definition toLowerCase (s : jsstring) : jsstring := List.map lower_unit s.

(** The regular-expression class [\s] (WhiteSpace and LineTerminator), which
    is also what [trim] strips. *)
Definition isWhiteSpace (c : N) : bool :=
  ((9 <=? c) && (c <=? 13)) || (c =? 32) || (c =? 160) || (c =? 5760)
  || ((8192 <=? c) && (c <=? 8202)) || (c =? 8232) || (c =? 8233)
  || (c =? 8239) || (c =? 8287) || (c =? 12288) || (c =? 65279).

(** [s.replace(/\s+/g, ' ')]: [inRun] tells that the previous unit belonged
    to the run of white space being replaced. *)
Fixpoint collapseFrom (inRun : bool) (s : jsstring) : jsstring :=
  match s with
  | [] => []
  | c :: r =>
      if isWhiteSpace c
      then (if inRun then collapseFrom true r else 32 :: collapseFrom true r)
      else c :: collapseFrom false r
  end.

Definition collapseWhiteSpace (s : jsstring) : jsstring := collapseFrom false s.

Fixpoint trimStart (s : jsstring) : jsstring :=
  match s with
  | c :: r => if isWhiteSpace c then trimStart r else s
  | [] => []
  end.

Definition trimEnd (s : jsstring) : jsstring := rev (trimStart (rev s)).

(** [String.prototype.trim]. *)
Definition trim (s : jsstring) : jsstring := trimEnd (trimStart s).

(** [s.replace(/[...]/g, to)] for a character class and a one-unit
    replacement. *)
Definition replaceClass (inClass : N -> bool) (to : N) (s : jsstring) : jsstring :=
  List.map (fun c => if inClass c then to else c) s.

(** [s.replace(/c/g, to)] for a one-unit pattern and any replacement. *)
Definition replaceUnit (c : N) (to : jsstring) (s : jsstring) : jsstring :=
  List.flat_map (fun x => if x =? c then to else [x]) s.

Fixpoint startsWith (p s : jsstring) : bool :=
  match p, s with
  | [], _ => true
  | x :: p', y :: s' => N.eqb x y && startsWith p' s'
  | _ :: _, [] => false
  end.

(** [s.includes(needle)]. *)
Fixpoint includes (s needle : jsstring) : bool :=
  startsWith needle s ||
  match s with
  | [] => false
  | _ :: r => includes r needle
  end.

(** [Array.prototype.includes] on an array of strings. *)
Definition arrayIncludes (l : list jsstring) (x : jsstring) : bool :=
  existsb (fun y => streq y x) l.

(** [Array.prototype.join]. *)
Fixpoint join (sep : jsstring) (l : list jsstring) : jsstring :=
  match l with
  | [] => []
  | [x] => x
  | x :: r => x ++ sep ++ join sep r
  end.

(** Word characters of [\w] and [\b]. *)
Definition isWordChar (c : N) : bool :=
  ((48 <=? c) && (c <=? 57)) || ((65 <=? c) && (c <=? 90))
  || ((97 <=? c) && (c <=? 122)) || (c =? 95).

Definition isDigit (c : N) : bool := (48 <=? c) && (c <=? 57).

(** Canonicalisation of a code unit under the [i] flag of a non-Unicode
    regular expression, as far as comparison with an ASCII pattern unit goes:
    a unit outside ASCII never canonicalises to an ASCII one. *)
Definition upper_ascii (c : N) : N :=
  if (97 <=? c) && (c <=? 122) then c - 32 else c.

Definition unitEqCI (p c : N) : bool := upper_ascii p =? upper_ascii c.

Fixpoint startsWithCI (p s : jsstring) : bool :=
  match p, s with
  | [], _ => true
  | x :: p', y :: s' => unitEqCI x y && startsWithCI p' s'
  | _ :: _, [] => false
  end.

(** [s.replace(new RegExp(from, 'gi'), to)] for a non-empty pattern [from]
    made of literal ASCII units: every non-overlapping occurrence, found from
    left to right, is replaced.  [skip] counts the units of the occurrence
    just replaced that are still to be dropped. *)
Fixpoint replaceAllCIFrom (from to : jsstring) (skip : nat) (s : jsstring) : jsstring :=
  match s with
  | [] => []
  | c :: r =>
      match skip with
      | S k => replaceAllCIFrom from to k r
      | O =>
          if startsWithCI from s
          then to ++ replaceAllCIFrom from to (List.length from - 1)%nat r
          else c :: replaceAllCIFrom from to 0 r
      end
  end.

Definition replaceAllCI (from to s : jsstring) : jsstring :=
  replaceAllCIFrom from to 0 s.

(** ** Numbers *)

(** A length or a count as a number (exact below [2^53]). *)
Definition ofNat (n : nat) : float := PrimFloat.of_uint63 (Uint63.of_Z (Z.of_nat n)).

Definition isNaN (x : float) : bool := negb (PrimFloat.eqb x x).

(** [Math.min(a, b)]: [NaN] if either argument is, and [-0] below [+0]. *)
Definition mathMin (a b : float) : float :=
  if isNaN a then a
  else if isNaN b then b
  else if PrimFloat.ltb a b then a
  else if PrimFloat.ltb b a then b
  else if PrimFloat.ltb (PrimFloat.div 1 a) 0 then a else b.

(** Truthiness of a number: [0], [-0] and [NaN] are falsy. *)
Definition truthyNum (x : float) : bool :=
  negb (isNaN x) && negb (PrimFloat.eqb x 0).

(** The value of a non-empty run of decimal digits. *)
Definition digitsValue (ds : jsstring) : Z :=
  List.fold_left (fun acc d => 10 * acc + (Z.of_N d - 48))%Z ds 0%Z.

(** The binary64 value nearest to [m / 10^k], ties to even. *)
Definition decimalToFloat (m : Z) (k : nat) : float :=
  match m, (10 ^ Z.of_nat k)%Z with
  | Zpos p, Zpos q =>
      SF2Prim (SFdiv prec emax (S754_finite false p 0) (S754_finite false q 0))
  | _, _ => 0%float
  end.

(** [parseFloat] on a string of the shape [\d+(?:\.\d+)?], given as its
    integer digits and its fraction digits. *)
Definition parseFloat (int frac : jsstring) : float :=
  decimalToFloat (digitsValue (int ++ frac)) (List.length frac).

(** [parseInt(s, 10)] on a string of the shape [\d+]. *)
Definition parseInt (ds : jsstring) : float :=
  SF2Prim (binary_normalize prec emax (digitsValue ds) 0 false).

(** The decimal digits of a natural number. *)
Definition digitsOf (n : N) : jsstring :=
  js (NilZero.string_of_uint (N.to_uint n)).

(** The integer nearest to [x * 10^f] for a finite [x >= 0], the larger one
    on a tie. *)
Definition scaledNearest (f : nat) (x : float) : N :=
  match Prim2SF x with
  | S754_finite _ m e =>
      let s := (Zpos m * 10 ^ Z.of_nat f)%Z in
      match e with
      | Zneg p => Z.to_N ((2 * s + 2 ^ Zpos p) / 2 ^ (Zpos p + 1))
      | _ => Z.to_N (s * 2 ^ e)
      end
  | _ => 0%N
  end.

(** [Number.prototype.toFixed(f)].  Exact for [NaN], the infinities and every
    finite value of magnitude below [1e21]; at or above [1e21] JavaScript
    switches to exponent notation, where this model keeps plain digits. *)
Definition toFixed (f : nat) (x : float) : jsstring :=
  if isNaN x then js "NaN"
  else if PrimFloat.eqb x infinity then js "Infinity"
  else if PrimFloat.eqb x neg_infinity then js "-Infinity"
  else
    let sign := if PrimFloat.ltb x 0 then js "-" else [] in
    let ds := digitsOf (scaledNearest f (PrimFloat.abs x)) in
    let ds := List.repeat 48 (S f - List.length ds)%nat ++ ds in
    let k := List.length ds in
    match f with
    | O => sign ++ ds
    | _ => sign ++ firstn (k - f)%nat ds ++ js "." ++ skipn (k - f)%nat ds
    end.

End JS.

Import JS.
#[local] Open Scope float_scope.

(* ===================================================================== *)
(** * [src/types]: records, enumerations and the mandated texts           *)
(* ===================================================================== *)

Inductive BeverageType := wine | beer | distilled_spirits.

Inductive ProducerRole :=
  bottled_by | produced_by | distilled_by | imported_by | blended_by.

Inductive ImageQualityIssue :=
  | blur | low_resolution | glare | angle_distortion | partial_occlusion
  | poor_lighting | oversaturation | text_cut_off | multiple_labels.

(** The string an [ImageQualityIssue] is at run time. *)
Definition issueName (i : ImageQualityIssue) : jsstring :=
  match i with
  | blur => js "blur"
  | low_resolution => js "low_resolution"
  | glare => js "glare"
  | angle_distortion => js "angle_distortion"
  | partial_occlusion => js "partial_occlusion"
  | poor_lighting => js "poor_lighting"
  | oversaturation => js "oversaturation"
  | text_cut_off => js "text_cut_off"
  | multiple_labels => js "multiple_labels"
  end.

Module ImageQualityAssessment.
Record t := mk {
  overallScore : float;
  issues : list ImageQualityIssue;
  recommendResubmit : bool;
  details : option jsstring
}.
End ImageQualityAssessment.

Module GovernmentWarningDetails.
Record t := mk {
  prefixInAllCaps : bool;
  appearsBold : option bool;              (* [null] if it cannot be determined *)
  onContrastingBackground : option bool;
  textComplete : bool;
  issues : list jsstring
}.
End GovernmentWarningDetails.

Module ApplicationData.
Record t := mk {
  brandName : jsstring;
  fancifulName : option jsstring;
  classType : jsstring;
  beverageType : BeverageType;
  alcoholContent : jsstring;
  proof : option jsstring;
  netContents : jsstring;
  producerName : jsstring;
  producerAddress : jsstring;
  countryOfOrigin : option jsstring;
  vintageYear : option jsstring;
  appellation : option jsstring;
  healthClaimsOrStatements : option jsstring;
  containsSulfites : option bool;
  ageStatement : option jsstring
}.
End ApplicationData.

Module ExtractedLabelData.
Record t := mk {
  brandName : option jsstring;
  fancifulName : option jsstring;
  classType : option jsstring;
  alcoholContent : option jsstring;
  proof : option jsstring;
  netContents : option jsstring;
  producerName : option jsstring;
  producerAddress : option jsstring;
  producerRole : option ProducerRole;
  countryOfOrigin : option jsstring;
  governmentWarning : option jsstring;
  governmentWarningFormatCorrect : option bool;
  governmentWarningDetails : option GovernmentWarningDetails.t;
  vintageYear : option jsstring;
  appellation : option jsstring;
  containsSulfites : option bool;
  ageStatement : option jsstring;
  rawText : option jsstring;
  confidence : float;
  fieldConfidences : option (list (jsstring * float));
  imageQuality : option ImageQualityAssessment.t;
  extractionNotes : option jsstring
}.
End ExtractedLabelData.

Inductive VerificationStatus := approved | rejected | needs_review.

(** The optional [notes] of a comparison.  A note is kept as its template and
    the values that fill it; the text of a note is never inspected by the
    engine. *)
Inductive Note :=
  | NoteNotSpecified                 (* 'Field not specified in application' *)
  | NoteNotFoundOnLabel              (* 'Field not found on label' *)
  | NoteBrandMinorDifference (app label : jsstring)
  | NoteBrandPossibleMatch (app label : jsstring)
  | NoteBrandMismatch (app label : jsstring)
  | NoteWithinTolerance (tolerance app label : float)
  | NoteAlcoholMismatch (app label tolerance : float)
  | NoteMinorProofDifference (app label : float)
  | NoteProofMismatch (app label : float)
  | NoteCouldNotParseAlcohol
  | NoteNonStandardSize (app : jsstring)
  | NoteMinorNetContentsDifference (app label : float) (unit : jsstring)
  | NoteMatchedAfterUnitConversion (app label : jsstring)
  | NoteNetContentsMismatch (app label : jsstring)
  | NoteValuesDiffer (app label : jsstring)
  | NoteVintageYearMismatch (app label : jsstring).

(** What every comparator returns: [{ matches, confidence, notes? }]. *)
Module Comparison.
Record t := mk {
  matches : bool;
  confidence : float;
  notes : option Note
}.
End Comparison.

Module FieldVerification.
Record t := mk {
  field : jsstring;
  applicationValue : jsstring;
  labelValue : option jsstring;
  matches : bool;
  confidence : float;
  notes : option Note
}.
End FieldVerification.

Module VerificationResult.
Record t := mk {
  id : jsstring;
  timestamp : jsstring;
  status : VerificationStatus;
  overallConfidence : float;
  processingTimeMs : float;
  fieldVerifications : list FieldVerification.t;
  governmentWarningPresent : bool;
  governmentWarningCorrect : bool;
  governmentWarningNotes : option jsstring;
  governmentWarningIssues : list jsstring;
  extractedData : ExtractedLabelData.t;
  matchedFields : nat;
  totalFields : nat;
  flaggedIssues : list jsstring;
  requiresHumanReview : bool;
  humanReviewReasons : list jsstring;
  imageQualityScore : option float;
  imageQualityIssues : option (list ImageQualityIssue);
  meetsTargetTime : bool
}.
End VerificationResult.

Definition GOVERNMENT_WARNING_TEXT : jsstring :=
  js ("GOVERNMENT WARNING: (1) According to the Surgeon General, women should "
      ++ "not drink alcoholic beverages during pregnancy because of the risk of "
      ++ "birth defects. (2) Consumption of alcoholic beverages impairs your "
      ++ "ability to drive a car or operate machinery, and may cause health "
      ++ "problems.").

Definition GOVERNMENT_WARNING_REQUIRED_PHRASES : list jsstring :=
  [ js "government warning"; js "surgeon general"; js "women should not drink";
    js "pregnancy"; js "birth defects"; js "impairs your ability";
    js "drive a car"; js "operate machinery"; js "health problems" ].

(** ** The patterns of [ALCOHOL_CONTENT_PATTERNS] and [NET_CONTENTS_PATTERNS]

    Each pattern is a number followed by white space and a unit word, searched
    for at the leftmost position where it matches.  None of them can succeed
    after backtracking into the number or the white space (what follows each
    is a unit that starts with a letter, [%] or [.]), so a match at a given
    start is the greedy one. *)

Fixpoint spanDigits (s : jsstring) : jsstring * jsstring :=
  match s with
  | c :: r =>
      if isDigit c then let '(d, t) := spanDigits r in (c :: d, t) else ([], s)
  | [] => ([], [])
  end.

(** [(\d+(?:\.\d+)?)] at the head of [s]: integer digits, fraction digits and
    what follows. *)
Definition scanNumber (s : jsstring) : option (jsstring * jsstring * jsstring) :=
  match spanDigits s with
  | ([], _) => None
  | (int, rest) =>
      match rest with
      | 46%N :: r' =>
          match spanDigits r' with
          | ([], _) => Some (int, [], rest)
          | (frac, rest') => Some (int, frac, rest')
          end
      | _ => Some (int, [], rest)
      end
  end.

(** A literal under the [i] flag at the head of [s]: what follows it. *)
Definition lit (p s : jsstring) : option jsstring :=
  if startsWithCI p s then Some (skipn (List.length p) s) else None.

(** An optional unit [c?] at the head of [s]: what follows it. *)
Definition optUnit (c : N) (s : jsstring) : jsstring :=
  match s with
  | x :: r => if unitEqCI c x then r else s
  | [] => s
  end.

Definition andThen {A B} (o : option A) (f : A -> option B) : option B :=
  match o with Some a => f a | None => None end.

Definition orElse {A} (o p : option A) : option A :=
  match o with Some a => Some a | None => p end.

(** The text a match consumed: [s] without the remainder [rest]. *)
Definition consumed (s rest : jsstring) : jsstring :=
  firstn (List.length s - List.length rest) s.

(** [(mL|L|ml|l|liters?|milliliters?)] under [i]: the text matched. *)
Definition metricUnit (s : jsstring) : option jsstring :=
  option_map (consumed s)
    (orElse (lit (js "mL") s)
    (orElse (lit (js "L") s)
    (orElse (lit (js "ml") s)
    (orElse (lit (js "l") s)
    (orElse (option_map (optUnit 115) (lit (js "liter") s))
            (option_map (optUnit 115) (lit (js "milliliter") s))))))).

(** [(fl\.?\s*oz\.?|oz\.?|ounces?)] under [i]: the text matched. *)
Definition imperialUnit (s : jsstring) : option jsstring :=
  option_map (consumed s)
    (orElse (andThen (lit (js "fl") s) (fun r =>
               option_map (optUnit 46) (lit (js "oz") (trimStart (optUnit 46 r)))))
    (orElse (option_map (optUnit 46) (lit (js "oz") s))
            (option_map (optUnit 115) (lit (js "ounce") s)))).

(** [%\s*(?:alc\.?\/vol\.?|abv|alcohol\s*by\s*volume)] under [i]. *)
Definition percentQualifier (s : jsstring) : bool :=
  match lit (js "%") s with
  | None => false
  | Some r =>
      let q := trimStart r in
      match
        orElse (andThen (lit (js "alc") q) (fun r1 => lit (js "/vol") (optUnit 46 r1)))
        (orElse (lit (js "abv") q)
                (andThen (lit (js "alcohol") q) (fun r1 =>
                 andThen (lit (js "by") (trimStart r1)) (fun r2 =>
                 lit (js "volume") (trimStart r2)))))
      with
      | Some _ => true
      | None => false
      end
  end.

(** The leftmost position of [s] at which [at_] matches. *)
Fixpoint leftmost {A} (at_ : jsstring -> option A) (s : jsstring) : option A :=
  match at_ s with
  | Some r => Some r
  | None =>
      match s with
      | [] => None
      | _ :: r => leftmost at_ r
      end
  end.

(** [contents.match(NET_CONTENTS_PATTERNS.metric)]: groups 1 (as integer and
    fraction digits) and 2. *)
Definition matchMetric : jsstring -> option (jsstring * jsstring * jsstring) :=
  leftmost (fun s =>
    andThen (scanNumber s) (fun '(int, frac, rest) =>
    option_map (fun u => (int, frac, u)) (metricUnit (trimStart rest)))).

(** [contents.match(NET_CONTENTS_PATTERNS.imperial)]. *)
Definition matchImperial : jsstring -> option (jsstring * jsstring * jsstring) :=
  leftmost (fun s =>
    andThen (scanNumber s) (fun '(int, frac, rest) =>
    option_map (fun u => (int, frac, u)) (imperialUnit (trimStart rest)))).

(** [content.match(ALCOHOL_CONTENT_PATTERNS.percentage)]: group 1. *)
Definition matchPercentage : jsstring -> option (jsstring * jsstring) :=
  leftmost (fun s =>
    andThen (scanNumber s) (fun '(int, frac, rest) =>
    if percentQualifier (trimStart rest) then Some (int, frac) else None)).

(** [content.match(ALCOHOL_CONTENT_PATTERNS.proof)]: group 1. *)
Definition matchProof : jsstring -> option jsstring :=
  leftmost (fun s =>
    match spanDigits s with
    | ([], _) => None
    | (ds, rest) =>
        option_map (fun _ => ds) (lit (js "proof") (trimStart rest))
    end).

(* ===================================================================== *)
(** * [src/lib/constraints.ts]                                            *)
(* ===================================================================== *)

Module Constraints.

Module PROCESSING_CONSTRAINTS.
Definition targetTimeMs : float := 5000.
End PROCESSING_CONSTRAINTS.

Module CONFIDENCE_THRESHOLDS.
Definition high : float := 0.85.
Definition medium : float := 0.70.
Definition low : float := 0.60.
Definition autoApprovalMinimum : float := 0.85.
Definition humanReviewThreshold : float := 0.75.
End CONFIDENCE_THRESHOLDS.

(** [MATCHING_THRESHOLDS.brandName]. *)
Module BrandNameThresholds.
Definition exactMatchThreshold : float := 1.0.
Definition highSimilarityThreshold : float := 0.90.
Definition reviewThreshold : float := 0.70.
Definition rejectThreshold : float := 0.50.
End BrandNameThresholds.

(** [ALCOHOL_CONTENT_RULES.tolerances]. *)
Module Tolerances.
Definition spirits_standard : float := 0.3.
Definition spirits_highProof : float := 0.15.
Definition spirits_highProofThreshold : float := 50.
Definition wine_tableWine : float := 1.5.
Definition wine_dessertWine : float := 1.0.
Definition wine_threshold : float := 14.
Definition beer_standard : float := 0.3.
End Tolerances.

Module GOVERNMENT_WARNING_RULES.
Definition minSimilarity : float := 0.95.
End GOVERNMENT_WARNING_RULES.

(** [OCR_ERROR_PATTERNS.characterSubstitutions], as pairs [(from, to)]. *)
Definition characterSubstitutions : list (jsstring * jsstring) :=
  [ (js "0", js "O"); (js "O", js "0"); (js "1", js "l"); (js "1", js "I");
    (js "l", js "1"); (js "I", js "1"); (js "5", js "S"); (js "S", js "5");
    (js "8", js "B"); (js "B", js "8"); (js "rn", js "m"); (js "m", js "rn") ].

(** [NET_CONTENTS_RULES.standardSizes]. *)
Definition standardSizes (b : BeverageType) : list float :=
  match b with
  | distilled_spirits => [50; 100; 200; 375; 750; 1000; 1750]
  | wine => [187; 375; 500; 750; 1000; 1500; 3000]
  | beer => [355; 473; 650; 946]
  end.

Definition getAlcoholTolerance (beverageType : BeverageType) (abv : float) : float :=
  match beverageType with
  | distilled_spirits =>
      if Tolerances.spirits_highProofThreshold <? abv
      then Tolerances.spirits_highProof
      else Tolerances.spirits_standard
  | wine =>
      if Tolerances.wine_threshold <? abv
      then Tolerances.wine_dessertWine
      else Tolerances.wine_tableWine
  | beer => Tolerances.beer_standard
  end.

Definition isStandardFillSize (beverageType : BeverageType) (volumeMl : float) : bool :=
  existsb (fun size => PrimFloat.abs (size - volumeMl) <? 5)
          (standardSizes beverageType).

(** The quote glyphs of [/[‘’'`´]/]. *)
Definition isSingleQuote (c : N) : bool :=
  ((c =? 8216) || (c =? 8217) || (c =? 39) || (c =? 96) || (c =? 180))%N.

(** The quote glyphs of [/[“”]/]. *)
Definition isDoubleQuote (c : N) : bool := ((c =? 8220) || (c =? 8221))%N.

(** [\b] after a word character: the end of the string or a unit that is not
    a word character. *)
Definition wordEnds (r : jsstring) : bool :=
  match r with
  | [] => true
  | c :: _ => negb (isWordChar c)
  end.

(** [s.replace(/'s\b/g, 's')]. *)
Fixpoint stripPossessive (s : jsstring) : jsstring :=
  match s with
  | [] => []
  | c :: t =>
      match t with
      | x :: r =>
          if ((c =? 39) && (x =? 115))%N && wordEnds r
          then 115%N :: stripPossessive r
          else c :: stripPossessive t
      | [] => [c]
      end
  end.

Definition normalizeForOcrErrors (text : jsstring) : jsstring :=
  let normalized := toLowerCase text in
  let normalized := trim (collapseWhiteSpace normalized) in
  let normalized :=
    replaceClass isDoubleQuote 34 (replaceClass isSingleQuote 39 normalized) in
  stripPossessive normalized.

(** The loop of [areSemanticallySimilar]: every substitution rewrites
    [testStr], and the rewritten string is what the next one starts from. *)
Fixpoint trySubstitutions (subs : list (jsstring * jsstring))
         (testStr norm2 : jsstring) : bool :=
  match subs with
  | [] => false
  | (from, to) :: rest =>
      let testStr := replaceAllCI from (toLowerCase to) testStr in
      if streq testStr norm2 then true
      else trySubstitutions rest testStr norm2
  end.

Definition areSemanticallySimilar (str1 str2 : jsstring) : bool :=
  let norm1 := normalizeForOcrErrors str1 in
  let norm2 := normalizeForOcrErrors str2 in
  if streq norm1 norm2 then true
  else trySubstitutions characterSubstitutions norm1 norm2.

(** The minimum type size of the warning, in millimetres, for a container
    volume. *)
Definition getRequiredWarningTypeSize (containerVolumeMl : float) : float :=
  if containerVolumeMl <=? 237 then 1
  else if containerVolumeMl <? 3000 then 2
  else 3.

(** ** The helpers of the extraction adapter *)

(** A value of the parsed response as [cleanValue] sees it: [null] or
    [undefined], a string, or anything else, given by what [String(val)]
    makes of it. *)
Inductive JsonValue :=
  | JNull
  | JString (s : jsstring)
  | JOther (asString : jsstring).

Definition cleanValue (val : JsonValue) : option jsstring :=
  match val with
  | JNull => None
  | JString s =>
      let cleaned := trim s in
      if streq cleaned [] || streq cleaned (js "NOT_FOUND")
         || streq cleaned (js "NOT_READABLE") || streq cleaned (js "null")
      then None
      else Some cleaned
  | JOther asString => Some asString
  end.

Definition wineIndicators : list jsstring :=
  [ js "wine"; js "champagne"; js "prosecco"; js "cava"; js "sparkling";
    js "cabernet"; js "merlot"; js "chardonnay"; js "pinot"; js "sauvignon";
    js "riesling"; js "zinfandel"; js "syrah"; js "shiraz"; js "malbec";
    js "sangiovese"; js "tempranillo"; js "moscato";
    js "gew" ++ [252%N] ++ js "rztraminer";
    js "port"; js "sherry"; js "madeira"; js "marsala"; js "vermouth" ].

Definition beerIndicators : list jsstring :=
  [ js "beer"; js "ale"; js "lager"; js "stout"; js "porter"; js "pilsner";
    js "pilsener"; js "ipa"; js "india pale"; js "hefeweizen"; js "wheat beer";
    js "witbier"; js "bock"; js "dunkel"; js "m" ++ [228%N] ++ js "rzen";
    js "oktoberfest"; js "kolsch"; js "k" ++ [246%N] ++ js "lsch";
    js "saison"; js "farmhouse"; js "gose"; js "sour"; js "lambic";
    js "malt beverage"; js "malt liquor"; js "hard seltzer"; js "hard cider" ].

Definition spiritsIndicators : list jsstring :=
  [ js "whiskey"; js "whisky"; js "bourbon"; js "scotch"; js "rye";
    js "vodka"; js "gin"; js "rum"; js "tequila"; js "mezcal";
    js "brandy"; js "cognac"; js "armagnac"; js "calvados"; js "pisco";
    js "liqueur"; js "cordial"; js "schnapps"; js "absinthe"; js "aquavit";
    js "baijiu"; js "shochu"; js "soju"; js "grappa"; js "ouzo" ].

Definition inferBeverageType (classType : option jsstring) : BeverageType :=
  match classType with
  | Some ((_ :: _) as classType) =>
      let lower := toLowerCase classType in
      if existsb (fun ind => includes lower ind) wineIndicators then wine
      else if existsb (fun ind => includes lower ind) beerIndicators then beer
      else if existsb (fun ind => includes lower ind) spiritsIndicators
      then distilled_spirits
      else distilled_spirits
  | _ => distilled_spirits
  end.

End Constraints.

(* ===================================================================== *)
(** * [src/lib/verification.ts]                                           *)
(* ===================================================================== *)

Module Verification.
Import Constraints.

(** ** Text normalisation and similarity *)

Definition normalizeText (text : jsstring) : jsstring :=
  trim
    (replaceUnit 8230 (js "...")
      (replaceUnit 8211 (js "-")
        (replaceClass isDoubleQuote 34
          (replaceClass isSingleQuote 39
            (collapseWhiteSpace (toLowerCase text)))))).

Definition cost (a b : N) : nat := if (a =? b)%N then 0 else 1.

Definition min3 (a b c : nat) : nat := Nat.min (Nat.min a b) c.

(** The cells [matrix[i][1..]] of one row of the edit-distance matrix, from
    the row [above] and the cell [left] just written; [c] is [s1[i - 1]]. *)
Fixpoint fillRow (c : N) (s2 : jsstring) (above : list nat) (left : nat) : list nat :=
  match s2, above with
  | b :: s2', diag :: ((up :: _) as above') =>
      let v := min3 (up + 1) (left + 1) (diag + cost c b) in
      v :: fillRow c s2' above' v
  | _, _ => []
  end.

(** The rows [matrix[i + 1..]], one per unit of [s1]; the result is the last
    row. *)
Fixpoint fillMatrix (s1 s2 : jsstring) (above : list nat) (i : nat) : list nat :=
  match s1 with
  | [] => above
  | c :: s1' => fillMatrix s1' s2 (S i :: fillRow c s2 above (S i)) (S i)
  end.

(** [matrix[s1.length][s2.length]]. *)
Definition levenshtein (s1 s2 : jsstring) : nat :=
  last (fillMatrix s1 s2 (seq 0 (S (List.length s2))) 0) 0%nat.

Definition stringSimilarity (str1 str2 : jsstring) : float :=
  let s1 := normalizeText str1 in
  let s2 := normalizeText str2 in
  if streq s1 s2 then 1.0
  else if (List.length s1 =? 0)%nat || (List.length s2 =? 0)%nat then 0.0
  else
    let distance := levenshtein s1 s2 in
    let maxLength := Nat.max (List.length s1) (List.length s2) in
    1 - (ofNat distance / ofNat maxLength).

(** ** Brand name *)

Definition compareBrandNames (applicationName labelName : jsstring) : Comparison.t :=
  if areSemanticallySimilar applicationName labelName
  then Comparison.mk true 1.0 None
  else
    let similarity := stringSimilarity applicationName labelName in
    if BrandNameThresholds.exactMatchThreshold <=? similarity
    then Comparison.mk true 1.0 None
    else if BrandNameThresholds.highSimilarityThreshold <=? similarity
    then Comparison.mk true similarity
           (Some (NoteBrandMinorDifference applicationName labelName))
    else if BrandNameThresholds.reviewThreshold <=? similarity
    then Comparison.mk false similarity
           (Some (NoteBrandPossibleMatch applicationName labelName))
    else Comparison.mk false similarity
           (Some (NoteBrandMismatch applicationName labelName)).

(** ** Alcohol content *)

Module ParsedAlcohol.
Record t := mk { percentage : option float; proof : option float }.
End ParsedAlcohol.

Definition parseAlcoholContent (content : jsstring) : ParsedAlcohol.t :=
  let percentMatch := matchPercentage content in
  let proofMatch := matchProof content in
  ParsedAlcohol.mk
    (option_map (fun '(int, frac) => parseFloat int frac) percentMatch)
    (option_map parseInt proofMatch).

Definition compareAlcoholContent (applicationContent labelContent : jsstring)
           (beverageType : BeverageType) : Comparison.t :=
  let appParsed := parseAlcoholContent applicationContent in
  let labelParsed := parseAlcoholContent labelContent in
  match ParsedAlcohol.percentage appParsed, ParsedAlcohol.percentage labelParsed with
  | Some appPct, Some labelPct =>
      let diff := PrimFloat.abs (appPct - labelPct) in
      if diff =? 0 then Comparison.mk true 1.0 None
      else
        let tolerance := getAlcoholTolerance beverageType appPct in
        if diff <=? tolerance
        then Comparison.mk true (1 - (diff / tolerance) * 0.1)
               (if 0.05 <? diff
                then Some (NoteWithinTolerance tolerance appPct labelPct)
                else None)
        else Comparison.mk false 0.0
               (Some (NoteAlcoholMismatch appPct labelPct tolerance))
  | _, _ =>
      match ParsedAlcohol.proof appParsed, ParsedAlcohol.proof labelParsed with
      | Some appProof, Some labelProof =>
          let proofDiff := PrimFloat.abs (appProof - labelProof) in
          if proofDiff =? 0 then Comparison.mk true 1.0 None
          else if proofDiff <=? 1
          then Comparison.mk true 0.95
                 (Some (NoteMinorProofDifference appProof labelProof))
          else Comparison.mk false 0.0
                 (Some (NoteProofMismatch appProof labelProof))
      | _, _ =>
          let similarity := stringSimilarity applicationContent labelContent in
          Comparison.mk (0.9 <=? similarity) similarity
            (if similarity <? 0.9 then Some NoteCouldNotParseAlcohol else None)
      end
  end.

(** ** Net contents *)

Module ParsedNetContents.
Record t := mk {
  value : option float;
  unit : option jsstring;
  originalUnit : option jsstring
}.
End ParsedNetContents.

Definition parseNetContents (contents : jsstring) : ParsedNetContents.t :=
  let metricMatch := matchMetric contents in
  let imperialMatch := matchImperial contents in
  match metricMatch with
  | Some (int, frac, unitText) =>
      let value := parseFloat int frac in
      let unit := toLowerCase unitText in
      let value :=
        if (streq unit (js "l") || streq unit (js "liter") || streq unit (js "liters"))
           && negb (includes unit (js "milli"))
        then value * 1000
        else value in
      ParsedNetContents.mk (Some value) (Some (js "ml")) (Some unitText)
  | None =>
      match imperialMatch with
      | Some (int, frac, unitText) =>
          ParsedNetContents.mk (Some (parseFloat int frac)) (Some (js "fl oz"))
                               (Some unitText)
      | None => ParsedNetContents.mk None None None
      end
  end.

(** [a === b] on [string | null]. *)
Definition optStreq (a b : option jsstring) : bool :=
  match a, b with
  | Some x, Some y => streq x y
  | None, None => true
  | _, _ => false
  end.

Definition compareNetContents (applicationContents labelContents : jsstring)
           (beverageType : BeverageType) : Comparison.t :=
  let appParsed := parseNetContents applicationContents in
  let labelParsed := parseNetContents labelContents in
  match ParsedNetContents.value appParsed, ParsedNetContents.value labelParsed with
  | Some appValue, Some labelValue =>
      let appUnit := ParsedNetContents.unit appParsed in
      let labelUnit := ParsedNetContents.unit labelParsed in
      let crossUnit :=
        let appMl :=
          if optStreq appUnit (Some (js "fl oz")) then appValue * 29.5735
          else appValue in
        let labelMl :=
          if optStreq labelUnit (Some (js "fl oz")) then labelValue * 29.5735
          else labelValue in
        if PrimFloat.abs (appMl - labelMl) <? 5
        then Comparison.mk true 0.90
               (Some (NoteMatchedAfterUnitConversion applicationContents labelContents))
        else Comparison.mk false 0.0
               (Some (NoteNetContentsMismatch applicationContents labelContents)) in
      if optStreq appUnit labelUnit then
        if appValue =? labelValue then
          let valueMl :=
            if optStreq appUnit (Some (js "ml")) then appValue
            else appValue * 29.5735 in
          let isStandard := isStandardFillSize beverageType valueMl in
          Comparison.mk true 1.0
            (if negb isStandard then Some (NoteNonStandardSize applicationContents)
             else None)
        else
          let diff := PrimFloat.abs (appValue - labelValue) in
          let tolerance := appValue * 0.01 in
          if diff <=? tolerance
          then Comparison.mk true 0.95
                 (Some (NoteMinorNetContentsDifference appValue labelValue
                          (match appUnit with Some u => u | None => [] end)))
          else crossUnit
      else crossUnit
  | _, _ =>
      let similarity := stringSimilarity applicationContents labelContents in
      Comparison.mk (0.9 <=? similarity) similarity None
  end.

(** ** Government warning *)

Module WarningCheck.
Record t := mk {
  present : bool;
  correct : bool;
  notes : option jsstring;
  issues : option (list jsstring)
}.
End WarningCheck.

(** The double quote inside a message. *)
Definition dq : jsstring := [34%N].

Definition quotedPrefix : jsstring := dq ++ js "GOVERNMENT WARNING:" ++ dq.

(** The required phrases the normalised warning lacks. *)
Definition missingPhrasesOf (normalizedWarning : jsstring) : list jsstring :=
  List.filter (fun phrase => negb (includes normalizedWarning (toLowerCase phrase)))
              GOVERNMENT_WARNING_REQUIRED_PHRASES.

Definition missingPhrasesIssue (missingPhrases : list jsstring) : jsstring :=
  js "Missing required phrases: " ++ join (js ", ") (firstn 3 missingPhrases)
  ++ (if (3 <? List.length missingPhrases)%nat then js "..." else []).

Definition percentOf (similarity : float) : jsstring := toFixed 0 (similarity * 100).

Definition validateGovernmentWarning (warningText : option jsstring) : WarningCheck.t :=
  match warningText with
  | None =>
      WarningCheck.mk false false (Some (js "Government warning not found on label"))
                      (Some [js "Government warning text not found"])
  | Some warningText =>
      if (List.length (trim warningText) =? 0)%nat then
        WarningCheck.mk false false (Some (js "Government warning not found on label"))
                        (Some [js "Government warning text not found"])
      else if negb (includes warningText (js "GOVERNMENT WARNING:")) then
        if includes (toLowerCase warningText) (js "government warning") then
          let issue :=
            if includes warningText (js "Government Warning:") then
              quotedPrefix ++ js " must be in ALL CAPS (found " ++ dq
              ++ js "Government Warning:" ++ dq ++ js " in title case)"
            else if includes warningText (js "government warning:") then
              quotedPrefix ++ js " must be in ALL CAPS (found lowercase)"
            else if includes warningText (js "GOVERNMENT WARNING")
                    && negb (includes warningText (js "GOVERNMENT WARNING:")) then
              js "Missing colon after " ++ dq ++ js "GOVERNMENT WARNING" ++ dq
            else
              quotedPrefix ++ js " must be in ALL CAPS" in
          WarningCheck.mk true false (Some issue) (Some [issue])
        else
          WarningCheck.mk false false (Some (js "Government warning prefix not found"))
            (Some [js "Government warning prefix " ++ quotedPrefix ++ js " not found"])
      else
        let normalizedWarning := normalizeText warningText in
        let normalizedRequired := normalizeText GOVERNMENT_WARNING_TEXT in
        let missingPhrases := missingPhrasesOf normalizedWarning in
        let issues :=
          if (0 <? List.length missingPhrases)%nat
          then [missingPhrasesIssue missingPhrases] else [] in
        let similarity := stringSimilarity normalizedWarning normalizedRequired in
        if GOVERNMENT_WARNING_RULES.minSimilarity <=? similarity then
          WarningCheck.mk true true None
            (if (0 <? List.length issues)%nat then Some issues else None)
        else if 0.85 <=? similarity then
          WarningCheck.mk true false
            (Some (js "Government warning text differs slightly from required text"))
            (Some (issues ++ [js "Warning text " ++ percentOf similarity
                              ++ js "% similar to required text"]))
        else if 0.70 <=? similarity then
          WarningCheck.mk true false
            (Some (js "Government warning text differs from required text"))
            (Some (issues ++ [js "Warning text only " ++ percentOf similarity
                              ++ js "% similar to required text"]))
        else
          WarningCheck.mk true false
            (Some (js "Government warning text significantly differs from required text"))
            (Some (issues ++ [js "Warning text significantly different ("
                              ++ percentOf similarity ++ js "% match)"]))
  end.

Module WarningValidation.
Record t := mk {
  present : bool;
  correct : bool;
  issues : list jsstring;
  confidence : float
}.
End WarningValidation.

(** The issues the AI-asserted details add to those collected so far. *)
Definition detailIssues (warningDetails : GovernmentWarningDetails.t)
           (issues : list jsstring) : list jsstring :=
  let issues :=
    if negb (GovernmentWarningDetails.prefixInAllCaps warningDetails)
       && negb (existsb (fun i => includes i (js "ALL CAPS")) issues)
    then issues ++ [quotedPrefix ++ js " prefix not in ALL CAPS"]
    else issues in
  let issues :=
    match GovernmentWarningDetails.appearsBold warningDetails with
    | Some false =>
        issues ++ [quotedPrefix ++ js " should be in bold type (flagged for review)"]
    | _ => issues
    end in
  let issues :=
    if negb (GovernmentWarningDetails.textComplete warningDetails)
    then issues ++ [js "Government warning text appears incomplete"]
    else issues in
  if (0 <? List.length (GovernmentWarningDetails.issues warningDetails))%nat
  then issues ++ List.filter (fun i => negb (arrayIncludes issues i))
                             (GovernmentWarningDetails.issues warningDetails)
  else issues.

Definition validateGovernmentWarningEnhanced (extractedData : ExtractedLabelData.t)
  : WarningValidation.t :=
  let warningText := ExtractedLabelData.governmentWarning extractedData in
  let warningDetails := ExtractedLabelData.governmentWarningDetails extractedData in
  let basicResult := validateGovernmentWarning warningText in
  let issues :=
    match WarningCheck.issues basicResult with
    | Some l => l
    | None => []
    end in
  if negb (WarningCheck.present basicResult) then
    WarningValidation.mk false false
      (if (0 <? List.length issues)%nat then issues
       else [js "Government warning not found"])
      0
  else
    let issues :=
      match warningDetails with
      | Some d => detailIssues d issues
      | None => issues
      end in
    let normalizedWarning :=
      normalizeText (match warningText with Some w => w | None => [] end) in
    let normalizedRequired := normalizeText GOVERNMENT_WARNING_TEXT in
    let similarity := stringSimilarity normalizedWarning normalizedRequired in
    WarningValidation.mk (WarningCheck.present basicResult)
      (WarningCheck.correct basicResult && (List.length issues =? 0)%nat)
      issues similarity.

(** ** Field verification helpers *)

Definition verifyField (fieldName : jsstring)
           (applicationValue labelValue : option jsstring)
           (compareFn : jsstring -> jsstring -> Comparison.t) : FieldVerification.t :=
  match applicationValue with
  | Some ((_ :: _) as app) =>
      match labelValue with
      | Some ((_ :: _) as label) =>
          let result := compareFn app label in
          FieldVerification.mk fieldName app (Some label)
            (Comparison.matches result) (Comparison.confidence result)
            (Comparison.notes result)
      | _ =>
          FieldVerification.mk fieldName app None false 0.0
            (Some NoteNotFoundOnLabel)
      end
  | _ =>
      FieldVerification.mk fieldName [] labelValue true 1.0
        (Some NoteNotSpecified)
  end.

Definition compareStrings (app label : jsstring) (threshold : float) : Comparison.t :=
  let similarity := stringSimilarity app label in
  Comparison.mk (threshold <=? similarity) similarity
    (if similarity <? threshold then Some (NoteValuesDiffer app label) else None).

(** ** The main verification function *)

(** The three arrays [verifyLabel] appends to while it runs. *)
Module Acc.
Record t := mk {
  fieldVerifications : list FieldVerification.t;
  flaggedIssues : list jsstring;
  humanReviewReasons : list jsstring
}.
Definition empty : t := mk [] [] [].
Definition pushField (v : FieldVerification.t) (a : t) : t :=
  mk (fieldVerifications a ++ [v]) (flaggedIssues a) (humanReviewReasons a).
Definition flag (s : jsstring) (a : t) : t :=
  mk (fieldVerifications a) (flaggedIssues a ++ [s]) (humanReviewReasons a).
Definition review (s : jsstring) (a : t) : t :=
  mk (fieldVerifications a) (flaggedIssues a) (humanReviewReasons a ++ [s]).
End Acc.

(** The outcome of the status determination: the status, the flag
    [requiresHumanReview] and the review reasons as they stand afterwards. *)
Module Decision.
Record t := mk {
  status : VerificationStatus;
  requiresHumanReview : bool;
  humanReviewReasons : list jsstring
}.
End Decision.

Section VerifyLabel.

Variable applicationData : ApplicationData.t.
Variable extractedData : ExtractedLabelData.t.

Let beverageType := ApplicationData.beverageType applicationData.

Definition brandNameVerification : FieldVerification.t :=
  verifyField (js "Brand Name")
    (Some (ApplicationData.brandName applicationData))
    (ExtractedLabelData.brandName extractedData)
    compareBrandNames.

Definition brandNameStep (a : Acc.t) : Acc.t :=
  let v := brandNameVerification in
  let a := Acc.pushField v a in
  if negb (FieldVerification.matches v) then
    if BrandNameThresholds.reviewThreshold <=? FieldVerification.confidence v
    then Acc.review
           (js "Brand name requires review: similar but not exact match ("
            ++ toFixed 0 (FieldVerification.confidence v * 100) ++ js "% similar)") a
    else Acc.flag (js "Brand name mismatch") a
  else a.

Definition classTypeStep (a : Acc.t) : Acc.t :=
  let v := verifyField (js "Class/Type")
             (Some (ApplicationData.classType applicationData))
             (ExtractedLabelData.classType extractedData)
             (fun app label => compareStrings app label 0.85) in
  let a := Acc.pushField v a in
  if negb (FieldVerification.matches v) then
    if 0.70 <=? FieldVerification.confidence v
    then Acc.review (js "Class/type requires review") a
    else Acc.flag (js "Class/type mismatch") a
  else a.

Definition alcoholVerification : FieldVerification.t :=
  verifyField (js "Alcohol Content")
    (Some (ApplicationData.alcoholContent applicationData))
    (ExtractedLabelData.alcoholContent extractedData)
    (fun app label => compareAlcoholContent app label beverageType).

Definition alcoholStep (a : Acc.t) : Acc.t :=
  let v := alcoholVerification in
  let a := Acc.pushField v a in
  if negb (FieldVerification.matches v)
  then Acc.flag (js "Alcohol content mismatch") a
  else a.

Definition netContentsStep (a : Acc.t) : Acc.t :=
  let v := verifyField (js "Net Contents")
             (Some (ApplicationData.netContents applicationData))
             (ExtractedLabelData.netContents extractedData)
             (fun app label => compareNetContents app label beverageType) in
  let a := Acc.pushField v a in
  if negb (FieldVerification.matches v)
  then Acc.flag (js "Net contents mismatch") a
  else a.

(** The check for a non-standard fill size. *)
Definition fillSizeStep (a : Acc.t) : Acc.t :=
  let netContents := ApplicationData.netContents applicationData in
  if truthy (Some netContents) then
    let parsed := parseNetContents netContents in
    match ParsedNetContents.value parsed with
    | Some value =>
        if truthyNum value then
          let valueMl :=
            if optStreq (ParsedNetContents.unit parsed) (Some (js "fl oz"))
            then value * 29.5735 else value in
          if negb (isStandardFillSize beverageType valueMl)
          then Acc.review (js "Non-standard container size: " ++ netContents) a
          else a
        else a
    | None => a
    end
  else a.

Definition producerStep (a : Acc.t) : Acc.t :=
  let v := verifyField (js "Producer Name")
             (Some (ApplicationData.producerName applicationData))
             (ExtractedLabelData.producerName extractedData)
             (fun app label => compareStrings app label 0.80) in
  let a := Acc.pushField v a in
  if negb (FieldVerification.matches v) then
    if 0.60 <=? FieldVerification.confidence v
    then Acc.review (js "Producer name requires review") a
    else Acc.flag (js "Producer name mismatch") a
  else a.

Definition countryStep (a : Acc.t) : Acc.t :=
  if truthy (ApplicationData.countryOfOrigin applicationData) then
    let v := verifyField (js "Country of Origin")
               (ApplicationData.countryOfOrigin applicationData)
               (ExtractedLabelData.countryOfOrigin extractedData)
               (fun app label => compareStrings app label 0.90) in
    let a := Acc.pushField v a in
    if negb (FieldVerification.matches v)
    then Acc.flag (js "Country of origin mismatch") a
    else a
  else a.

Definition isWine : bool :=
  match beverageType with wine => true | _ => false end.

Definition vintageStep (a : Acc.t) : Acc.t :=
  if isWine && truthy (ApplicationData.vintageYear applicationData) then
    let v := verifyField (js "Vintage Year")
               (ApplicationData.vintageYear applicationData)
               (ExtractedLabelData.vintageYear extractedData)
               (fun app label =>
                  Comparison.mk (streq app label)
                    (if streq app label then 1.0 else 0.0)
                    (if negb (streq app label)
                     then Some (NoteVintageYearMismatch app label) else None)) in
    let a := Acc.pushField v a in
    if negb (FieldVerification.matches v)
    then Acc.flag (js "Vintage year mismatch") a
    else a
  else a.

Definition appellationStep (a : Acc.t) : Acc.t :=
  if isWine && truthy (ApplicationData.appellation applicationData) then
    let v := verifyField (js "Appellation")
               (ApplicationData.appellation applicationData)
               (ExtractedLabelData.appellation extractedData)
               (fun app label => compareStrings app label 0.85) in
    let a := Acc.pushField v a in
    if negb (FieldVerification.matches v)
    then Acc.review (js "Appellation requires review") a
    else a
  else a.

(** The field comparisons, in the order of the source. *)
Definition fieldComparisons : Acc.t :=
  appellationStep (vintageStep (countryStep (producerStep (fillSizeStep
    (netContentsStep (alcoholStep (classTypeStep (brandNameStep Acc.empty)))))))).

Definition warningStep (warningValidation : WarningValidation.t) (a : Acc.t) : Acc.t :=
  if negb (WarningValidation.present warningValidation) then
    Acc.flag (js "Government warning not present") a
  else if negb (WarningValidation.correct warningValidation) then
    if 0.85 <=? WarningValidation.confidence warningValidation then
      Acc.flag (js "Government warning format/text issue")
        (Acc.review (js "Government warning requires review: minor formatting issues") a)
    else Acc.flag (js "Government warning format/text incorrect") a
  else a.

Definition imageQualityStep (a : Acc.t) : Acc.t :=
  match ExtractedLabelData.imageQuality extractedData with
  | Some imageQuality =>
      if ImageQualityAssessment.recommendResubmit imageQuality then
        Acc.review
          (js "Image quality issues: "
           ++ join (js ", ") (List.map issueName (ImageQualityAssessment.issues imageQuality))) a
      else if (0 <? List.length (ImageQualityAssessment.issues imageQuality))%nat
              && (ImageQualityAssessment.overallScore imageQuality <? 0.70) then
        Acc.review
          (js "Low image quality may affect accuracy ("
           ++ toFixed 0 (ImageQualityAssessment.overallScore imageQuality * 100)
           ++ js "%)") a
      else a
  | None => a
  end.

(** Everything collected before the status is determined. *)
Definition collected : Acc.t :=
  imageQualityStep
    (warningStep (validateGovernmentWarningEnhanced extractedData) fieldComparisons).

Definition findField (name : jsstring) (fvs : list FieldVerification.t)
  : option FieldVerification.t :=
  List.find (fun f => streq (FieldVerification.field f) name) fvs.

(** [!fvs.find(f => f.field === name)?.matches]. *)
Definition fieldFails (name : jsstring) (fvs : list FieldVerification.t) : bool :=
  match findField name fvs with
  | Some f => negb (FieldVerification.matches f)
  | None => true
  end.

(** [fvs.find(f => f.field === name)?.confidence ?? 0]. *)
Definition fieldConfidence (name : jsstring) (fvs : list FieldVerification.t) : float :=
  match findField name fvs with
  | Some f => FieldVerification.confidence f
  | None => 0
  end.

Definition criticalFailures (warningValidation : WarningValidation.t)
           (fvs : list FieldVerification.t) : list bool :=
  [ negb (WarningValidation.present warningValidation);
    negb (WarningValidation.correct warningValidation)
      && (WarningValidation.confidence warningValidation <? 0.85);
    fieldFails (js "Brand Name") fvs
      && (fieldConfidence (js "Brand Name") fvs <? BrandNameThresholds.reviewThreshold);
    fieldFails (js "Alcohol Content") fvs ].

Definition matchedFieldsOf (fvs : list FieldVerification.t) : nat :=
  List.length (List.filter FieldVerification.matches fvs).

Definition avgFieldConfidenceOf (fvs : list FieldVerification.t) : float :=
  List.fold_left (fun sum f => sum + FieldVerification.confidence f) fvs 0
  / ofNat (List.length fvs).

Definition overallConfidenceOf (fvs : list FieldVerification.t) : float :=
  mathMin (avgFieldConfidenceOf fvs) (ExtractedLabelData.confidence extractedData).

Definition determineStatus (warningValidation : WarningValidation.t)
           (fvs : list FieldVerification.t) (overallConfidence : float)
           (humanReviewReasons : list jsstring) : Decision.t :=
  let matchedFields := matchedFieldsOf fvs in
  let totalFields := List.length fvs in
  let requiresHumanReview := (0 <? List.length humanReviewReasons)%nat in
  let hasCriticalFailure :=
    existsb (fun f => f) (criticalFailures warningValidation fvs) in
  if hasCriticalFailure then
    if (CONFIDENCE_THRESHOLDS.medium <=? overallConfidence)
       && (0 <? List.length humanReviewReasons)%nat
    then
      Decision.mk needs_review true
        (if negb (existsb (fun r => includes r (js "Critical")) humanReviewReasons)
         then humanReviewReasons
              ++ [js "Critical fields may have issues but confidence is moderate"]
         else humanReviewReasons)
    else Decision.mk rejected requiresHumanReview humanReviewReasons
  else if (matchedFields =? totalFields)%nat
          && WarningValidation.correct warningValidation
          && (CONFIDENCE_THRESHOLDS.autoApprovalMinimum <=? overallConfidence)
          && (List.length humanReviewReasons =? 0)%nat
  then Decision.mk approved requiresHumanReview humanReviewReasons
  else if (overallConfidence <? CONFIDENCE_THRESHOLDS.humanReviewThreshold)
          || (0 <? List.length humanReviewReasons)%nat
  then
    Decision.mk needs_review true
      (if (overallConfidence <? CONFIDENCE_THRESHOLDS.humanReviewThreshold)
          && negb (existsb (fun r => includes r (js "confidence")) humanReviewReasons)
       then humanReviewReasons
            ++ [js "Low confidence score: " ++ toFixed 1 (overallConfidence * 100)
                ++ js "%"]
       else humanReviewReasons)
  else if (ofNat totalFields * 0.8 <=? ofNat matchedFields)
          && WarningValidation.correct warningValidation
  then
    Decision.mk needs_review true
      (humanReviewReasons ++ [js "Some fields require human verification"])
  else Decision.mk rejected requiresHumanReview humanReviewReasons.

(** [verifyLabel]; [id] and [timestamp] stand for the values [uuidv4()] and
    [new Date().toISOString()] give during the call. *)
Definition verifyLabel (processingTimeMs : float) (id timestamp : jsstring)
  : VerificationResult.t :=
  let warningValidation := validateGovernmentWarningEnhanced extractedData in
  let acc := collected in
  let fieldVerifications := Acc.fieldVerifications acc in
  let overallConfidence := overallConfidenceOf fieldVerifications in
  let decision :=
    determineStatus warningValidation fieldVerifications overallConfidence
                    (Acc.humanReviewReasons acc) in
  let imageQuality := ExtractedLabelData.imageQuality extractedData in
  VerificationResult.mk id timestamp
    (Decision.status decision)
    overallConfidence
    processingTimeMs
    fieldVerifications
    (WarningValidation.present warningValidation)
    (WarningValidation.correct warningValidation)
    (List.hd_error (WarningValidation.issues warningValidation))
    (WarningValidation.issues warningValidation)
    extractedData
    (matchedFieldsOf fieldVerifications)
    (List.length fieldVerifications)
    (Acc.flaggedIssues acc)
    (Decision.requiresHumanReview decision)
    (Decision.humanReviewReasons decision)
    (option_map ImageQualityAssessment.overallScore imageQuality)
    (option_map ImageQualityAssessment.issues imageQuality)
    (processingTimeMs <=? PROCESSING_CONSTRAINTS.targetTimeMs).

End VerifyLabel.

End Verification.

(* ===================================================================== *)
(** * Notions the properties are stated with                              *)
(* ===================================================================== *)

Module Spec.
Import Constraints Verification.

(** The recurrence the edit-distance matrix obeys, on reversed prefixes: the
    heads of [a] and [b] are the last units of the two prefixes. *)
Fixpoint levr (a : jsstring) : jsstring -> nat :=
  fix inner (b : jsstring) : nat :=
    match a, b with
    | [], _ => List.length b
    | _, [] => List.length a
    | x :: a', y :: b' =>
        min3 (levr a' b + 1) (inner b' + 1) (levr a' b' + cost x y)
    end.

(** The matrix row of the reversed prefix [a]: its cells for [acc] and for
    [acc] extended by each further unit of [s2]. *)
Fixpoint rowOf (a acc s2 : jsstring) : list nat :=
  levr a acc ::
  match s2 with
  | [] => []
  | b :: s2' => rowOf a (b :: acc) s2'
  end.






(** A result with other echoed extracted data. *)
Definition withExtractedData (e : ExtractedLabelData.t) (r : VerificationResult.t)
  : VerificationResult.t :=
  VerificationResult.mk
    (VerificationResult.id r) (VerificationResult.timestamp r)
    (VerificationResult.status r) (VerificationResult.overallConfidence r)
    (VerificationResult.processingTimeMs r)
    (VerificationResult.fieldVerifications r)
    (VerificationResult.governmentWarningPresent r)
    (VerificationResult.governmentWarningCorrect r)
    (VerificationResult.governmentWarningNotes r)
    (VerificationResult.governmentWarningIssues r)
    e
    (VerificationResult.matchedFields r) (VerificationResult.totalFields r)
    (VerificationResult.flaggedIssues r)
    (VerificationResult.requiresHumanReview r)
    (VerificationResult.humanReviewReasons r)
    (VerificationResult.imageQualityScore r)
    (VerificationResult.imageQualityIssues r)
    (VerificationResult.meetsTargetTime r).






(** A step of [verifyLabel] that only ever appends to the field
    verifications. *)
Definition extends (step : Acc.t -> Acc.t) : Prop :=
  forall a, exists l,
    Acc.fieldVerifications (step a) = Acc.fieldVerifications a ++ l.

(** The application and the label of the test suite's bourbon. *)
Definition sampleApplication : ApplicationData.t :=
  ApplicationData.mk (js "OLD TOM DISTILLERY") None
    (js "Kentucky Straight Bourbon Whiskey") distilled_spirits
    (js "45% Alc./Vol.") (Some (js "90 Proof")) (js "750 mL")
    (js "Old Tom Distilling Co.") (js "Louisville, KY")
    (Some (js "United States")) None None None None None.

Definition sampleLabel (warning : option jsstring) (confidence : float)
  : ExtractedLabelData.t :=
  ExtractedLabelData.mk (Some (js "OLD TOM DISTILLERY")) None
    (Some (js "Kentucky Straight Bourbon Whiskey")) (Some (js "45% Alc./Vol."))
    None (Some (js "750 mL")) (Some (js "Old Tom Distilling Co."))
    (Some (js "Louisville, KY")) None (Some (js "United States"))
    warning (Some true) None None None None None None confidence None None None.

(** Extracted data that carries nothing but a warning text and a
    confidence. *)
Definition onlyWarning (w : option jsstring) (confidence : float)
  : ExtractedLabelData.t :=
  ExtractedLabelData.mk None None None None None None None None None None
    w None None None None None None None confidence None None None.

(** ** The order of binary64 values

    A value that is not [NaN] is ranked by its class (the infinities, the
    negative, zero and positive finite values) and then by exponent and
    mantissa, negated on the negative side; the comparisons of the numbers
    are the lexicographic ones on ranks. *)
Definition rank (x : spec_float) : option (Z * Z * Z) :=
  match x with
  | S754_nan => None
  | S754_infinity true => Some (-2, 0, 0)%Z
  | S754_infinity false => Some (2, 0, 0)%Z
  | S754_zero _ => Some (0, 0, 0)%Z
  | S754_finite true m e => Some (-1, - e, Zneg m)%Z
  | S754_finite false m e => Some (1, e, Zpos m)%Z
  end.

Definition lexlt (a b : Z * Z * Z) : Prop :=
  let '(a1, a2, a3) := a in
  let '(b1, b2, b3) := b in
  (a1 < b1 \/ (a1 = b1 /\ (a2 < b2 \/ (a2 = b2 /\ a3 < b3))))%Z.

(** The rank of a number. *)
Definition rankOf (x : float) : option (Z * Z * Z) := rank (Prim2SF x).

(** ** Steps of [verifyLabel] *)

(** A step that appends between [lo] and [hi] field verifications. *)
Definition adds (lo hi : nat) (step : Acc.t -> Acc.t) : Prop :=
  forall a, exists l,
    Acc.fieldVerifications (step a) = Acc.fieldVerifications a ++ l
    /\ (lo <= List.length l <= hi)%nat.

(** A step that only appends to the three arrays, flags nothing when the
    fields it adds all match, and leaves a flagged issue or a review reason
    when one of them does not. *)
Definition traced (step : Acc.t -> Acc.t) : Prop :=
  forall a, exists vs fl rs,
    Acc.fieldVerifications (step a) = Acc.fieldVerifications a ++ vs
    /\ Acc.flaggedIssues (step a) = Acc.flaggedIssues a ++ fl
    /\ Acc.humanReviewReasons (step a) = Acc.humanReviewReasons a ++ rs
    /\ (forallb FieldVerification.matches vs = true -> fl = [])
    /\ (forallb FieldVerification.matches vs = false -> fl <> [] \/ rs <> []).

(** An application with other values in the fields [verifyLabel] does not
    compare. *)
Definition withUncompared (fancifulName proof : option jsstring)
           (producerAddress : jsstring)
           (healthClaimsOrStatements : option jsstring)
           (containsSulfites : option bool) (ageStatement : option jsstring)
           (app : ApplicationData.t) : ApplicationData.t :=
  ApplicationData.mk
    (ApplicationData.brandName app) fancifulName
    (ApplicationData.classType app) (ApplicationData.beverageType app)
    (ApplicationData.alcoholContent app) proof
    (ApplicationData.netContents app) (ApplicationData.producerName app)
    producerAddress (ApplicationData.countryOfOrigin app)
    (ApplicationData.vintageYear app) (ApplicationData.appellation app)
    healthClaimsOrStatements containsSulfites ageStatement.

(** An application with another vintage year and appellation. *)
Definition withWineFields (vintageYear appellation : option jsstring)
           (app : ApplicationData.t) : ApplicationData.t :=
  ApplicationData.mk
    (ApplicationData.brandName app) (ApplicationData.fancifulName app)
    (ApplicationData.classType app) (ApplicationData.beverageType app)
    (ApplicationData.alcoholContent app) (ApplicationData.proof app)
    (ApplicationData.netContents app) (ApplicationData.producerName app)
    (ApplicationData.producerAddress app) (ApplicationData.countryOfOrigin app)
    vintageYear appellation
    (ApplicationData.healthClaimsOrStatements app)
    (ApplicationData.containsSulfites app) (ApplicationData.ageStatement app).

(** Two applications that agree on the fields a mandatory comparison reads. *)
Definition sameComparedFields (app1 app2 : ApplicationData.t) : Prop :=
  ApplicationData.brandName app1 = ApplicationData.brandName app2 /\
  ApplicationData.classType app1 = ApplicationData.classType app2 /\
  ApplicationData.beverageType app1 = ApplicationData.beverageType app2 /\
  ApplicationData.alcoholContent app1 = ApplicationData.alcoholContent app2 /\
  ApplicationData.netContents app1 = ApplicationData.netContents app2 /\
  ApplicationData.producerName app1 = ApplicationData.producerName app2 /\
  ApplicationData.countryOfOrigin app1 = ApplicationData.countryOfOrigin app2.

(** Two labels that agree on everything [verifyLabel] reads: the compared
    fields, the warning text and its details, the confidence and the image
    quality. *)
Definition sameReadFields (e1 e2 : ExtractedLabelData.t) : Prop :=
  ExtractedLabelData.brandName e1 = ExtractedLabelData.brandName e2 /\
  ExtractedLabelData.classType e1 = ExtractedLabelData.classType e2 /\
  ExtractedLabelData.alcoholContent e1 = ExtractedLabelData.alcoholContent e2 /\
  ExtractedLabelData.netContents e1 = ExtractedLabelData.netContents e2 /\
  ExtractedLabelData.producerName e1 = ExtractedLabelData.producerName e2 /\
  ExtractedLabelData.countryOfOrigin e1 = ExtractedLabelData.countryOfOrigin e2 /\
  ExtractedLabelData.vintageYear e1 = ExtractedLabelData.vintageYear e2 /\
  ExtractedLabelData.appellation e1 = ExtractedLabelData.appellation e2 /\
  ExtractedLabelData.governmentWarning e1 = ExtractedLabelData.governmentWarning e2 /\
  ExtractedLabelData.governmentWarningDetails e1
  = ExtractedLabelData.governmentWarningDetails e2 /\
  ExtractedLabelData.confidence e1 = ExtractedLabelData.confidence e2 /\
  ExtractedLabelData.imageQuality e1 = ExtractedLabelData.imageQuality e2.

(** A label with other values in the fields [verifyLabel] does not read. *)
Definition withUnread (fancifulName proof producerAddress : option jsstring)
           (producerRole : option ProducerRole)
           (governmentWarningFormatCorrect containsSulfites : option bool)
           (ageStatement rawText : option jsstring)
           (fieldConfidences : option (list (jsstring * float)))
           (extractionNotes : option jsstring)
           (e : ExtractedLabelData.t) : ExtractedLabelData.t :=
  ExtractedLabelData.mk
    (ExtractedLabelData.brandName e) fancifulName
    (ExtractedLabelData.classType e) (ExtractedLabelData.alcoholContent e)
    proof (ExtractedLabelData.netContents e)
    (ExtractedLabelData.producerName e) producerAddress producerRole
    (ExtractedLabelData.countryOfOrigin e)
    (ExtractedLabelData.governmentWarning e) governmentWarningFormatCorrect
    (ExtractedLabelData.governmentWarningDetails e)
    (ExtractedLabelData.vintageYear e) (ExtractedLabelData.appellation e)
    containsSulfites ageStatement rawText
    (ExtractedLabelData.confidence e) fieldConfidences
    (ExtractedLabelData.imageQuality e) extractionNotes.

(** A label that differs from [sampleLabel] in its alcohol content. *)
Definition sampleLabelWithAlcohol (alcohol : jsstring) (confidence : float)
  : ExtractedLabelData.t :=
  ExtractedLabelData.mk (Some (js "OLD TOM DISTILLERY")) None
    (Some (js "Kentucky Straight Bourbon Whiskey")) (Some alcohol)
    None (Some (js "750 mL")) (Some (js "Old Tom Distilling Co."))
    (Some (js "Louisville, KY")) None (Some (js "United States"))
    (Some GOVERNMENT_WARNING_TEXT) (Some true) None None None None None None
    confidence None None None.

End Spec.

(* ===================================================================== *)
(** * Properties                                                          *)
(* ===================================================================== *)

Import Constraints Verification Spec.

(** ** Order facts on binary64 values *)

Lemma SFcompare_antisym (x y : spec_float) (c : comparison) :
  SFcompare x y = Some c -> SFcompare y x = Some (CompOpp c).
Proof.
  destruct x as [sx|sx| |sx mx ex], y as [sy|sy| |sy my ey]; simpl;
    try discriminate;
    try (intros [= <-]; try destruct sx; try destruct sy; reflexivity).
  intros [= <-]. f_equal.
  destruct sx, sy; try reflexivity;
    rewrite (Z.compare_antisym ex ey); destruct (ex ?= ey)%Z; simpl; try reflexivity.
  all: now rewrite (Pos.compare_cont_antisym mx my Eq).
Qed.

Lemma leb_true_ltb_false (a b : float) :
  (a <=? b) = true -> (b <? a) = false.
Proof.
  rewrite leb_spec, ltb_spec. unfold SFleb, SFltb.
  destruct (SFcompare (Prim2SF a) (Prim2SF b)) as [c|] eqn:E; try discriminate.
  rewrite (SFcompare_antisym _ _ _ E).
  destruct c; simpl; congruence.
Qed.

(** ** Equality of strings *)

Lemma streq_refl (a : jsstring) : streq a a = true.
Proof.
  induction a as [|x a IH]; simpl; [reflexivity|].
  now rewrite N.eqb_refl, IH.
Qed.


Lemma streq_sym (a b : jsstring) : streq a b = streq b a.
Proof.
  revert b. induction a as [|x a IH]; intros [|y b]; simpl; auto.
  now rewrite N.eqb_sym, IH.
Qed.

(** ** Tolerance rules *)

(** C6: [getAlcoholTolerance] is a step function: for distilled spirits 0.3
    at every ABV up to and including 50 and 0.15 above 50; for wine 1.5 at
    every ABV up to and including 14 and 1.0 above 14; for beer 0.3 at every
    ABV. *)
Theorem getAlcoholTolerance_steps (abv : float) :
  ((abv <=? 50) = true -> getAlcoholTolerance distilled_spirits abv = 0.3) /\
  ((50 <? abv) = true -> getAlcoholTolerance distilled_spirits abv = 0.15) /\
  ((abv <=? 14) = true -> getAlcoholTolerance wine abv = 1.5) /\
  ((14 <? abv) = true -> getAlcoholTolerance wine abv = 1.0) /\
  getAlcoholTolerance beer abv = 0.3.
Proof.
  unfold getAlcoholTolerance, Tolerances.spirits_highProofThreshold,
    Tolerances.wine_threshold.
  split; [|split; [|split; [|split]]].
  - intros H. now rewrite (leb_true_ltb_false _ _ H).
  - intros H. now rewrite H.
  - intros H. now rewrite (leb_true_ltb_false _ _ H).
  - intros H. now rewrite H.
  - reflexivity.
Qed.

(** The breakpoints themselves and the values the tests name. *)
Lemma getAlcoholTolerance_steps_witness :
  getAlcoholTolerance distilled_spirits 50 = 0.3 /\
  getAlcoholTolerance distilled_spirits 55 = 0.15 /\
  getAlcoholTolerance wine 14 = 1.5 /\
  getAlcoholTolerance wine 18 = 1.0 /\
  getAlcoholTolerance beer 5 = 0.3.
Proof.
  split; [|split; [|split; [|split]]].
  - apply (proj1 (getAlcoholTolerance_steps 50)). reflexivity.
  - apply (proj1 (proj2 (getAlcoholTolerance_steps 55))). reflexivity.
  - apply (proj1 (proj2 (proj2 (getAlcoholTolerance_steps 14)))). reflexivity.
  - apply (proj1 (proj2 (proj2 (proj2 (getAlcoholTolerance_steps 18))))). reflexivity.
  - apply (proj2 (proj2 (proj2 (proj2 (getAlcoholTolerance_steps 5))))).
Defined.

(** ** Field verification *)

(** C7: [verifyField] with an empty or unset application value reports a
    match with confidence 1.0 and the not-specified note; with a populated
    application value and an absent extracted value it reports a mismatch
    with confidence 0.0 and the not-found note.  Neither result depends on
    the comparison function. *)
Theorem verifyField_short_circuits
        (fieldName : jsstring) (applicationValue labelValue : option jsstring)
        (compareFn : jsstring -> jsstring -> Comparison.t) :
  (truthy applicationValue = false ->
   verifyField fieldName applicationValue labelValue compareFn
   = FieldVerification.mk fieldName [] labelValue true 1.0 (Some NoteNotSpecified))
  /\
  (forall app, applicationValue = Some app -> app <> [] ->
   truthy labelValue = false ->
   verifyField fieldName applicationValue labelValue compareFn
   = FieldVerification.mk fieldName app None false 0.0 (Some NoteNotFoundOnLabel))
  /\
  (truthy applicationValue = false \/ truthy labelValue = false ->
   forall otherFn,
     verifyField fieldName applicationValue labelValue compareFn
     = verifyField fieldName applicationValue labelValue otherFn).
Proof.
  split; [|split].
  - destruct applicationValue as [[|c app]|]; simpl; try discriminate; reflexivity.
  - intros app -> Happ Hlabel.
    destruct app as [|c app]; [congruence|].
    destruct labelValue as [[|d label]|]; simpl in *; try discriminate; reflexivity.
  - intros H otherFn.
    destruct applicationValue as [[|c app]|]; try reflexivity.
    destruct labelValue as [[|d label]|]; try reflexivity.
    destruct H; discriminate.
Qed.

Lemma verifyField_short_circuits_witness :
  verifyField (js "Brand Name") None (Some (js "OLD TOM")) compareBrandNames
  = FieldVerification.mk (js "Brand Name") [] (Some (js "OLD TOM")) true 1.0
      (Some NoteNotSpecified)
  /\
  verifyField (js "Brand Name") (Some (js "OLD TOM")) None compareBrandNames
  = FieldVerification.mk (js "Brand Name") (js "OLD TOM") None false 0.0
      (Some NoteNotFoundOnLabel).
Proof.
  split.
  - apply (proj1 (verifyField_short_circuits (js "Brand Name") None
                    (Some (js "OLD TOM")) compareBrandNames)).
    reflexivity.
  - apply (proj1 (proj2 (verifyField_short_circuits (js "Brand Name")
                           (Some (js "OLD TOM")) None compareBrandNames))
             (js "OLD TOM")).
    + reflexivity.
    + discriminate.
    + reflexivity.
Defined.

(** ** The edit-distance matrix *)

Lemma min3_swap (p q r : nat) : min3 p q r = min3 q p r.
Proof. unfold min3. lia. Qed.

Lemma cost_sym (x y : N) : cost x y = cost y x.
Proof. unfold cost. now rewrite N.eqb_sym. Qed.

Lemma levr_nil_r (a : jsstring) : levr a [] = List.length a.
Proof. now destruct a. Qed.

Lemma levr_nil_l (b : jsstring) : levr [] b = List.length b.
Proof. now destruct b. Qed.

Lemma levr_cons (x y : N) (a b : jsstring) :
  levr (x :: a) (y :: b)
  = min3 (levr a (y :: b) + 1) (levr (x :: a) b + 1) (levr a b + cost x y).
Proof. reflexivity. Qed.

Lemma levr_sym (a b : jsstring) : levr a b = levr b a.
Proof.
  revert b. induction a as [|x a IHa]; intros b.
  - now rewrite levr_nil_r, levr_nil_l.
  - induction b as [|y b IHb]; [reflexivity|].
    rewrite !levr_cons, IHb, (IHa (y :: b)), (IHa b), (cost_sym x y).
    apply min3_swap.
Qed.

Lemma rowOf_unfold (a acc s2 : jsstring) :
  rowOf a acc s2
  = levr a acc :: match s2 with [] => [] | b :: s2' => rowOf a (b :: acc) s2' end.
Proof. now destruct s2. Qed.

Lemma rowOf_nil (acc s2 : jsstring) :
  rowOf [] acc s2 = seq (List.length acc) (S (List.length s2)).
Proof.
  revert acc. induction s2 as [|b s2 IH]; intros acc.
  - cbn. now rewrite levr_nil_l.
  - rewrite rowOf_unfold, IH, levr_nil_l. reflexivity.
Qed.

Lemma fillRow_rowOf (c : N) (a s2 acc : jsstring) :
  levr (c :: a) acc :: fillRow c s2 (rowOf a acc s2) (levr (c :: a) acc)
  = rowOf (c :: a) acc s2.
Proof.
  revert acc. induction s2 as [|b s2 IH]; intros acc.
  - reflexivity.
  - rewrite (rowOf_unfold a acc), (rowOf_unfold (c :: a) acc).
    rewrite (rowOf_unfold a (b :: acc)). cbn [fillRow].
    rewrite <- (rowOf_unfold a (b :: acc)), <- levr_cons.
    now rewrite IH.
Qed.

Lemma fillMatrix_rowOf (s1 s2 a : jsstring) :
  fillMatrix s1 s2 (rowOf a [] s2) (List.length a) = rowOf (rev s1 ++ a) [] s2.
Proof.
  revert a. induction s1 as [|c s1 IH]; intros a; [reflexivity|].
  cbn [fillMatrix rev].
  change (S (List.length a)) with (levr (c :: a) []) at 1.
  rewrite fillRow_rowOf.
  change (S (List.length a)) with (List.length (c :: a)).
  rewrite IH, <- app_assoc. reflexivity.
Qed.

Lemma last_rowOf (a acc s2 : jsstring) :
  last (rowOf a acc s2) 0%nat = levr a (rev s2 ++ acc).
Proof.
  revert acc. induction s2 as [|b s2 IH]; intros acc; [reflexivity|].
  rewrite rowOf_unfold.
  cbn [rev]. rewrite <- app_assoc. cbn [app]. rewrite <- IH.
  rewrite (rowOf_unfold a (b :: acc)). reflexivity.
Qed.

(** The matrix the source fills holds, in its last cell, the value of the
    recurrence on the two whole strings. *)
Lemma levenshtein_levr (s1 s2 : jsstring) :
  levenshtein s1 s2 = levr (rev s1) (rev s2).
Proof.
  unfold levenshtein.
  pose proof (rowOf_nil [] s2) as R. cbn [List.length] in R. rewrite <- R.
  pose proof (fillMatrix_rowOf s1 s2 []) as M. cbn [List.length] in M.
  rewrite M, last_rowOf, !app_nil_r. reflexivity.
Qed.

Lemma levenshtein_sym (s1 s2 : jsstring) : levenshtein s1 s2 = levenshtein s2 s1.
Proof. rewrite !levenshtein_levr. apply levr_sym. Qed.

(** ** Similarity *)

Lemma stringSimilarity_same (x : jsstring) : stringSimilarity x x = 1.0.
Proof. unfold stringSimilarity. now rewrite streq_refl. Qed.

Lemma stringSimilarity_sym (a b : jsstring) :
  stringSimilarity a b = stringSimilarity b a.
Proof.
  unfold stringSimilarity.
  rewrite (streq_sym (normalizeText a) (normalizeText b)).
  destruct (streq (normalizeText b) (normalizeText a)); [reflexivity|].
  rewrite (orb_comm (List.length (normalizeText a) =? 0)%nat).
  destruct ((List.length (normalizeText b) =? 0)%nat
            || (List.length (normalizeText a) =? 0)%nat); [reflexivity|].
  now rewrite levenshtein_sym, Nat.max_comm.
Qed.

Lemma normalizeText_empty : normalizeText [] = [].
Proof. reflexivity. Qed.

(** C8, as stated, fails: a string of white space is not empty, yet it
    normalises to the empty string and so is as similar to [""] as can be. *)
Lemma stringSimilarity_blank_empty :
  js " " <> [] /\ stringSimilarity (js " ") [] = 1.0 /\
  ~ (forall x : jsstring, x <> [] -> stringSimilarity x [] = 0.0).
Proof.
  split; [discriminate|]. split; [reflexivity|].
  intros H. specialize (H (js " ")).
  assert (E : stringSimilarity (js " ") [] = 0.0) by (apply H; discriminate).
  assert (F : (stringSimilarity (js " ") [] =? 0.0) = true) by now rewrite E.
  vm_compute in F. discriminate.
Qed.

(** C8, amended: [stringSimilarity x x = 1.0] for every non-empty [x];
    [stringSimilarity x "" = 0.0] for every [x] whose normalised text is not
    empty; and [stringSimilarity] is symmetric. *)
Theorem stringSimilarity_laws :
  (forall x : jsstring, x <> [] -> stringSimilarity x x = 1.0) /\
  (forall x : jsstring, normalizeText x <> [] -> stringSimilarity x [] = 0.0) /\
  (forall a b : jsstring, stringSimilarity a b = stringSimilarity b a).
Proof.
  split; [|split].
  - intros x _. apply stringSimilarity_same.
  - intros x Hx. unfold stringSimilarity. rewrite normalizeText_empty.
    destruct (normalizeText x) as [|c r]; [congruence|]. reflexivity.
  - apply stringSimilarity_sym.
Qed.

Lemma stringSimilarity_laws_witness :
  stringSimilarity (js "hello") (js "hello") = 1.0 /\
  stringSimilarity (js "hello") [] = 0.0 /\
  stringSimilarity (js "apple") (js "banana")
  = stringSimilarity (js "banana") (js "apple").
Proof.
  split; [|split].
  - apply (proj1 stringSimilarity_laws). discriminate.
  - apply (proj1 (proj2 stringSimilarity_laws)). vm_compute. discriminate.
  - apply (proj2 (proj2 stringSimilarity_laws)).
Defined.

(** ** Semantic equivalence under OCR substitutions *)




(** ** Net contents *)

(** What [compareNetContents] answers when both sides parse. *)
Lemma compareNetContents_parsed (app label : jsstring) (b : BeverageType)
      (va vl : float) (ua ul oa ol : option jsstring) :
  parseNetContents app = ParsedNetContents.mk (Some va) ua oa ->
  parseNetContents label = ParsedNetContents.mk (Some vl) ul ol ->
  let r := compareNetContents app label b in
  let ml v u := if optStreq u (Some (js "fl oz")) then v * 29.5735 else v in
  (optStreq ua ul = true -> (va =? vl) = true ->
   Comparison.matches r = true /\ Comparison.confidence r = 1.0) /\
  (optStreq ua ul = true -> (va =? vl) = false ->
   (PrimFloat.abs (va - vl) <=? va * 0.01) = true ->
   Comparison.matches r = true /\ Comparison.confidence r = 0.95) /\
  (optStreq ua ul = false \/
   ((va =? vl) = false /\ (PrimFloat.abs (va - vl) <=? va * 0.01) = false) ->
   Comparison.matches r = (PrimFloat.abs (ml va ua - ml vl ul) <? 5) /\
   Comparison.confidence r
   = if PrimFloat.abs (ml va ua - ml vl ul) <? 5 then 0.90 else 0.0).
Proof.
  intros Ha Hl. unfold compareNetContents. rewrite Ha, Hl.
  cbn [ParsedNetContents.value ParsedNetContents.unit].
  split; [|split].
  - intros -> ->. split; reflexivity.
  - intros -> -> ->. split; reflexivity.
  - intros [->|[-> ->]].
    + destruct (PrimFloat.abs _ <? 5); split; reflexivity.
    + destruct (optStreq ua ul);
        destruct (PrimFloat.abs _ <? 5); split; reflexivity.
Qed.

(** C4: on ["100 mL"] against ["103 mL"] both sides parse to millilitres, the
    values differ by 3, which is more than 1% of 100, and the comparator
    nevertheless reports a match with confidence 0.90 through the
    unit-conversion comparison. *)
Theorem compareNetContents_same_unit_beyond_tolerance :
  parseNetContents (js "100 mL")
  = ParsedNetContents.mk (Some 100) (Some (js "ml")) (Some (js "mL")) /\
  parseNetContents (js "103 mL")
  = ParsedNetContents.mk (Some 103) (Some (js "ml")) (Some (js "mL")) /\
  (PrimFloat.abs (100 - 103) <=? 100 * 0.01) = false /\
  compareNetContents (js "100 mL") (js "103 mL") distilled_spirits
  = Comparison.mk true 0.90
      (Some (NoteMatchedAfterUnitConversion (js "100 mL") (js "103 mL"))).
Proof.
  split; [|split; [|split]]; vm_compute; reflexivity.
Qed.

(** ** The warning validator and the formatting flags *)







(** ** The basic and the enhanced warning validator *)

Lemma startsWith_head (c : N) (p s : jsstring) :
  startsWith (c :: p) s = true -> exists r, s = c :: r.
Proof.
  destruct s as [|x r]; cbn; [discriminate|].
  intros H. apply andb_prop in H as [H _]. apply N.eqb_eq in H. subst. now exists r.
Qed.

Lemma includes_head (c : N) (p s : jsstring) :
  includes s (c :: p) = true -> In c s.
Proof.
  induction s as [|x s IH]; cbn [includes].
  - rewrite orb_false_r. intros H. now apply startsWith_head in H as [r ?].
  - intros H. apply orb_prop in H as [H|H].
    + apply startsWith_head in H as [r [= -> ->]]. now left.
    + right. auto.
Qed.

Lemma trimStart_nil (s : jsstring) :
  trimStart s = [] -> forall c, In c s -> isWhiteSpace c = true.
Proof.
  induction s as [|x s IH]; cbn [trimStart]; [intros _ c []|].
  destruct (isWhiteSpace x) eqn:E; [|discriminate].
  intros H c [<-|Hc]; auto.
Qed.

Lemma trimStart_head (s r : jsstring) (c : N) :
  trimStart s = c :: r -> isWhiteSpace c = false.
Proof.
  induction s as [|x s IH]; cbn [trimStart]; [discriminate|].
  destruct (isWhiteSpace x) eqn:E; [exact IH|].
  now intros [= <- _].
Qed.

Lemma trim_nil (s : jsstring) :
  trim s = [] -> forall c, In c s -> isWhiteSpace c = true.
Proof.
  unfold trim, trimEnd. intros H.
  assert (H1 : trimStart (rev (trimStart s)) = []).
  { destruct (trimStart (rev (trimStart s))) as [|x l]; [reflexivity|].
    cbn in H. now destruct (rev l). }
  destruct (trimStart s) as [|x l] eqn:E.
  - now apply trimStart_nil.
  - pose proof (trimStart_head _ _ _ E) as Hx.
    rewrite (trimStart_nil _ H1 x) in Hx; [discriminate|].
    apply in_rev. rewrite rev_involutive. now left.
Qed.




(** ** The status determination *)

Lemma determineStatus_approved (wv : WarningValidation.t)
      (fvs : list FieldVerification.t) (oc : float) (reasons : list jsstring) :
  Decision.status (determineStatus wv fvs oc reasons) = approved ->
  matchedFieldsOf fvs = List.length fvs /\
  WarningValidation.correct wv = true /\
  (0.85 <=? oc) = true /\
  reasons = [] /\
  Decision.humanReviewReasons (determineStatus wv fvs oc reasons) = [] /\
  existsb (fun f => f) (criticalFailures wv fvs) = false.
Proof.
  unfold determineStatus, CONFIDENCE_THRESHOLDS.autoApprovalMinimum. cbv zeta.
  destruct (existsb (fun f => f) (criticalFailures wv fvs)).
  - destruct ((CONFIDENCE_THRESHOLDS.medium <=? oc)
              && (0 <? List.length reasons)%nat); cbn; discriminate.
  - destruct ((matchedFieldsOf fvs =? List.length fvs)%nat
              && WarningValidation.correct wv && (0.85 <=? oc)
              && (List.length reasons =? 0)%nat) eqn:E.
    + intros _. cbn [Decision.humanReviewReasons].
      apply andb_prop in E as [E E4]. apply andb_prop in E as [E E3].
      apply andb_prop in E as [E1 E2].
      apply Nat.eqb_eq in E1, E4. apply length_zero_iff_nil in E4.
      repeat (split; [assumption|]). reflexivity.
    + destruct ((oc <? CONFIDENCE_THRESHOLDS.humanReviewThreshold)
                || (0 <? List.length reasons)%nat); [cbn; discriminate|].
      destruct ((ofNat (List.length fvs) * 0.8 <=? ofNat (matchedFieldsOf fvs))
                && WarningValidation.correct wv); cbn; discriminate.
Qed.

Lemma determineStatus_critical (wv : WarningValidation.t)
      (fvs : list FieldVerification.t) (oc : float) (reasons : list jsstring) :
  existsb (fun f => f) (criticalFailures wv fvs) = true ->
  Decision.status (determineStatus wv fvs oc reasons)
  = if (0.70 <=? oc) && negb (List.length reasons =? 0)%nat
    then needs_review else rejected.
Proof.
  intros H. unfold determineStatus, CONFIDENCE_THRESHOLDS.medium. cbv zeta.
  rewrite H.
  destruct reasons; destruct (0.70 <=? oc); reflexivity.
Qed.

(** C1: whenever [verifyLabel] answers [approved], every field matched, the
    warning validated as correct, the overall confidence is at least 0.85 and
    there is no human-review reason. *)
Theorem approved_only_when_clean
        (app : ApplicationData.t) (e : ExtractedLabelData.t)
        (t : float) (id ts : jsstring) :
  let r := verifyLabel app e t id ts in
  VerificationResult.status r = approved ->
  VerificationResult.matchedFields r = VerificationResult.totalFields r /\
  VerificationResult.governmentWarningCorrect r = true /\
  WarningValidation.correct (validateGovernmentWarningEnhanced e) = true /\
  (0.85 <=? VerificationResult.overallConfidence r) = true /\
  VerificationResult.humanReviewReasons r = [].
Proof.
  intros r H. subst r. unfold verifyLabel in *.
  cbn [VerificationResult.status VerificationResult.matchedFields
       VerificationResult.totalFields VerificationResult.governmentWarningCorrect
       VerificationResult.overallConfidence VerificationResult.humanReviewReasons] in *.
  apply determineStatus_approved in H as (H1 & H2 & H3 & _ & H5 & _).
  auto.
Qed.

Lemma approved_only_when_clean_witness :
  let r := verifyLabel sampleApplication (sampleLabel (Some GOVERNMENT_WARNING_TEXT) 0.95)
                       1000 [] [] in
  VerificationResult.matchedFields r = VerificationResult.totalFields r /\
  VerificationResult.governmentWarningCorrect r = true /\
  WarningValidation.correct
    (validateGovernmentWarningEnhanced (sampleLabel (Some GOVERNMENT_WARNING_TEXT) 0.95))
  = true /\
  (0.85 <=? VerificationResult.overallConfidence r) = true /\
  VerificationResult.humanReviewReasons r = [].
Proof.
  apply (approved_only_when_clean sampleApplication
           (sampleLabel (Some GOVERNMENT_WARNING_TEXT) 0.95) 1000 [] []).
  vm_compute. reflexivity.
Defined.

(** ** The fields [verifyLabel] collects *)

Lemma verifyField_field (n : jsstring) (a l : option jsstring)
      (f : jsstring -> jsstring -> Comparison.t) :
  FieldVerification.field (verifyField n a l f) = n.
Proof.
  unfold verifyField.
  destruct a as [[|? ?]|]; try reflexivity.
  destruct l as [[|? ?]|]; reflexivity.
Qed.

Ltac step_cases :=
  repeat match goal with
         | |- context [if ?b then _ else _] => destruct b
         | |- context [match ?o with Some _ => _ | None => _ end] => destruct o
         end.

Ltac extends_by_cases :=
  intros a; cbv zeta; step_cases;
  cbn [Acc.fieldVerifications Acc.pushField Acc.flag Acc.review];
  solve [ eexists; reflexivity | exists []; now rewrite app_nil_r ].

Lemma brandNameStep_fields (app : ApplicationData.t) (e : ExtractedLabelData.t)
      (a : Acc.t) :
  Acc.fieldVerifications (brandNameStep app e a)
  = Acc.fieldVerifications a ++ [brandNameVerification app e].
Proof. unfold brandNameStep. cbv zeta. step_cases; reflexivity. Qed.

Lemma classTypeStep_fields (app : ApplicationData.t) (e : ExtractedLabelData.t)
      (a : Acc.t) :
  exists v, Acc.fieldVerifications (classTypeStep app e a)
            = Acc.fieldVerifications a ++ [v]
            /\ FieldVerification.field v = js "Class/Type".
Proof.
  unfold classTypeStep. cbv zeta.
  eexists. split; [step_cases; reflexivity|apply verifyField_field].
Qed.

Lemma alcoholStep_fields (app : ApplicationData.t) (e : ExtractedLabelData.t)
      (a : Acc.t) :
  Acc.fieldVerifications (alcoholStep app e a)
  = Acc.fieldVerifications a ++ [alcoholVerification app e].
Proof. unfold alcoholStep. cbv zeta. step_cases; reflexivity. Qed.

Lemma netContentsStep_extends app e : extends (netContentsStep app e).
Proof. unfold netContentsStep. extends_by_cases. Qed.

Lemma fillSizeStep_extends app : extends (fillSizeStep app).
Proof. unfold fillSizeStep. extends_by_cases. Qed.

Lemma producerStep_extends app e : extends (producerStep app e).
Proof. unfold producerStep. extends_by_cases. Qed.

Lemma countryStep_extends app e : extends (countryStep app e).
Proof. unfold countryStep. extends_by_cases. Qed.

Lemma vintageStep_extends app e : extends (vintageStep app e).
Proof. unfold vintageStep. extends_by_cases. Qed.

Lemma appellationStep_extends app e : extends (appellationStep app e).
Proof. unfold appellationStep. extends_by_cases. Qed.

Lemma warningStep_extends wv : extends (warningStep wv).
Proof. unfold warningStep. extends_by_cases. Qed.

Lemma imageQualityStep_extends e : extends (imageQualityStep e).
Proof. unfold imageQualityStep. extends_by_cases. Qed.

Lemma extends_compose (f g : Acc.t -> Acc.t) :
  extends f -> extends g -> extends (fun a => g (f a)).
Proof.
  intros Hf Hg a. destruct (Hf a) as [l Hl]. destruct (Hg (f a)) as [m Hm].
  exists (l ++ m). now rewrite Hm, Hl, app_assoc.
Qed.

(** The collected field verifications start with the brand name, the
    class/type and the alcohol content, in this order. *)
Lemma collected_fields (app : ApplicationData.t) (e : ExtractedLabelData.t) :
  exists v rest,
    Acc.fieldVerifications (collected app e)
    = brandNameVerification app e :: v :: alcoholVerification app e :: rest
    /\ FieldVerification.field v = js "Class/Type".
Proof.
  pose (a3 := alcoholStep app e (classTypeStep app e (brandNameStep app e Acc.empty))).
  assert (H3 : exists v, Acc.fieldVerifications a3
                         = [brandNameVerification app e; v; alcoholVerification app e]
                         /\ FieldVerification.field v = js "Class/Type").
  { unfold a3. rewrite alcoholStep_fields.
    destruct (classTypeStep_fields app e (brandNameStep app e Acc.empty)) as (v & Hv & Hf).
    exists v. split; [|exact Hf].
    rewrite Hv, brandNameStep_fields. reflexivity. }
  destruct H3 as (v & H3 & Hf).
  assert (E : extends (fun a =>
            imageQualityStep e (warningStep (validateGovernmentWarningEnhanced e)
              (appellationStep app e (vintageStep app e (countryStep app e
                (producerStep app e (fillSizeStep app (netContentsStep app e a))))))))).
  { repeat (apply (extends_compose _ _); [|
      first [ apply imageQualityStep_extends | apply warningStep_extends
            | apply appellationStep_extends | apply vintageStep_extends
            | apply countryStep_extends | apply producerStep_extends
            | apply fillSizeStep_extends ]]).
    apply netContentsStep_extends. }
  destruct (E a3) as [rest Hrest].
  exists v, rest. split; [|exact Hf].
  unfold collected, fieldComparisons. fold a3.
  rewrite Hrest, H3. reflexivity.
Qed.

Lemma criticalFailures_collected (app : ApplicationData.t) (e : ExtractedLabelData.t)
      (wv : WarningValidation.t) :
  criticalFailures wv (Acc.fieldVerifications (collected app e))
  = [ negb (WarningValidation.present wv);
      negb (WarningValidation.correct wv) && (WarningValidation.confidence wv <? 0.85);
      negb (FieldVerification.matches (brandNameVerification app e))
        && (FieldVerification.confidence (brandNameVerification app e) <? 0.70);
      negb (FieldVerification.matches (alcoholVerification app e)) ].
Proof.
  destruct (collected_fields app e) as (v & rest & -> & Hv).
  unfold criticalFailures, fieldFails, fieldConfidence, findField.
  cbn [List.find].
  assert (Hb : FieldVerification.field (brandNameVerification app e) = js "Brand Name")
    by apply verifyField_field.
  assert (Ha : FieldVerification.field (alcoholVerification app e) = js "Alcohol Content")
    by apply verifyField_field.
  rewrite Hb, Hv, Ha.
  change (streq (js "Brand Name") (js "Brand Name")) with true.
  change (streq (js "Brand Name") (js "Alcohol Content")) with false.
  change (streq (js "Class/Type") (js "Alcohol Content")) with false.
  change (streq (js "Alcohol Content") (js "Alcohol Content")) with true.
  reflexivity.
Qed.

(** C2: when the warning is absent, or present but incorrect with a warning
    confidence below 0.85, or the brand name fails with a confidence below
    0.70, or the alcohol content fails, the status is [needs_review] if the
    overall confidence is at least 0.70 and a human-review reason had been
    collected, and [rejected] otherwise; it is not [approved]. *)
Theorem critical_failure_status
        (app : ApplicationData.t) (e : ExtractedLabelData.t)
        (t : float) (id ts : jsstring) :
  let wv := validateGovernmentWarningEnhanced e in
  let brand := brandNameVerification app e in
  let alcohol := alcoholVerification app e in
  let reasons := Acc.humanReviewReasons (collected app e) in
  let r := verifyLabel app e t id ts in
  (WarningValidation.present wv = false \/
   (WarningValidation.present wv = true /\ WarningValidation.correct wv = false /\
    (WarningValidation.confidence wv <? 0.85) = true) \/
   (FieldVerification.matches brand = false /\
    (FieldVerification.confidence brand <? 0.70) = true) \/
   FieldVerification.matches alcohol = false) ->
  VerificationResult.status r
  = (if (0.70 <=? VerificationResult.overallConfidence r)
        && negb (List.length reasons =? 0)%nat
     then needs_review else rejected)
  /\ VerificationResult.status r <> approved.
Proof.
  intros wv brand alcohol reasons r H.
  assert (S : VerificationResult.status r
              = if (0.70 <=? VerificationResult.overallConfidence r)
                   && negb (List.length reasons =? 0)%nat
                then needs_review else rejected).
  { subst r. unfold verifyLabel.
    cbn [VerificationResult.status VerificationResult.overallConfidence].
    apply determineStatus_critical.
    rewrite criticalFailures_collected. fold wv brand alcohol.
    cbn [existsb].
    destruct H as [H|[(_ & H1 & H2)|[(H1 & H2)|H]]].
    - now rewrite H.
    - rewrite H1, H2. cbn. now rewrite orb_true_r.
    - rewrite H1, H2. cbn. now rewrite !orb_true_r.
    - rewrite H. cbn. now rewrite !orb_true_r. }
  split; [exact S|].
  rewrite S. destruct (_ && _); discriminate.
Qed.

Lemma critical_failure_status_witness :
  VerificationResult.status
    (verifyLabel sampleApplication (sampleLabel None 0.95) 1000 [] [])
  = rejected.
Proof.
  destruct (critical_failure_status sampleApplication (sampleLabel None 0.95)
              1000 [] []) as [S _].
  - left. vm_compute. reflexivity.
  - rewrite S. vm_compute. reflexivity.
Defined.

(** ** Text normalisation *)

Lemma trimStart_suffix (s : jsstring) : exists p, s = p ++ trimStart s.
Proof.
  induction s as [|x s [p IH]]; [now exists []|].
  cbn [trimStart]. destruct (isWhiteSpace x).
  - exists (x :: p). cbn. now f_equal.
  - now exists [].
Qed.





















(* ===================================================================== *)
(** * Further properties                                                  *)
(* ===================================================================== *)

(** ** Comparisons of numbers through ranks *)

Ltac rank_case :=
  repeat split; intros;
  try discriminate; try reflexivity; try lia;
  try match goal with
      | H : (_, _, _) = (_, _, _) |- _ => injection H; intros; lia
      end;
  try (f_equal; [f_equal|]; lia).

Lemma SFcompare_rank (x y : spec_float) :
  match rank x, rank y with
  | Some a, Some b =>
      (SFcompare x y = Some Lt <-> lexlt a b) /\
      (SFcompare x y = Some Gt <-> lexlt b a) /\
      (SFcompare x y = Some Eq <-> a = b) /\
      SFcompare x y <> None
  | _, _ => SFcompare x y = None
  end.
Proof.
  destruct x as [sx|sx| |sx mx ex], y as [sy|sy| |sy my ey];
    try destruct sx; try destruct sy; cbn [rank SFcompare lexlt];
    try reflexivity; try solve [rank_case].
  - change (Pos.compare_cont Eq mx my) with (Z.compare (Zpos mx) (Zpos my)).
    destruct (Z.compare_spec ex ey);
      destruct (Z.compare_spec (Zpos mx) (Zpos my)); cbn [CompOpp]; rank_case.
  - change (Pos.compare_cont Eq mx my) with (Z.compare (Zpos mx) (Zpos my)).
    destruct (Z.compare_spec ex ey);
      destruct (Z.compare_spec (Zpos mx) (Zpos my)); rank_case.
Qed.

Lemma ltb_ranks (a b : float) :
  (a <? b) = true <->
  exists ka kb, rankOf a = Some ka /\ rankOf b = Some kb /\ lexlt ka kb.
Proof.
  rewrite ltb_spec. unfold SFltb, rankOf.
  pose proof (SFcompare_rank (Prim2SF a) (Prim2SF b)) as R.
  destruct (rank (Prim2SF a)) as [ka|], (rank (Prim2SF b)) as [kb|].
  - destruct R as (L & _ & _ & _). split.
    + intros H. exists ka, kb. repeat split. apply L.
      destruct (SFcompare _ _) as [[]|]; congruence.
    + intros (ka' & kb' & [= <-] & [= <-] & H). apply L in H. now rewrite H.
  - rewrite R. split; [discriminate|]. intros (? & ? & _ & [=] & _).
  - rewrite R. split; [discriminate|]. intros (? & ? & [=] & _).
  - rewrite R. split; [discriminate|]. intros (? & ? & [=] & _).
Qed.

Lemma leb_ranks (a b : float) :
  (a <=? b) = true <->
  exists ka kb, rankOf a = Some ka /\ rankOf b = Some kb /\ (lexlt ka kb \/ ka = kb).
Proof.
  rewrite leb_spec. unfold SFleb, rankOf.
  pose proof (SFcompare_rank (Prim2SF a) (Prim2SF b)) as R.
  destruct (rank (Prim2SF a)) as [ka|], (rank (Prim2SF b)) as [kb|].
  - destruct R as (L & _ & E & _). split.
    + intros H. exists ka, kb. repeat split.
      destruct (SFcompare _ _) as [[]|] eqn:C; try discriminate.
      * right. now apply E.
      * left. now apply L.
    + intros (ka' & kb' & [= <-] & [= <-] & [H|H]).
      * apply L in H. now rewrite H.
      * apply E in H. now rewrite H.
  - rewrite R. split; [discriminate|]. intros (? & ? & _ & [=] & _).
  - rewrite R. split; [discriminate|]. intros (? & ? & [=] & _).
  - rewrite R. split; [discriminate|]. intros (? & ? & [=] & _).
Qed.

Lemma isNaN_rank (a : float) :
  isNaN a = false <-> exists ka, rankOf a = Some ka.
Proof.
  unfold isNaN, rankOf. rewrite negb_false_iff, eqb_spec. unfold SFeqb.
  pose proof (SFcompare_rank (Prim2SF a) (Prim2SF a)) as R.
  destruct (rank (Prim2SF a)) as [ka|].
  - destruct R as (_ & _ & E & _). split; [intros _; now exists ka|].
    intros _. now rewrite (proj2 E eq_refl).
  - rewrite R. split; [discriminate|]. intros (? & [=]).
Qed.

Lemma lexlt_trans (a b c : Z * Z * Z) : lexlt a b -> lexlt b c -> lexlt a c.
Proof. destruct a as [[? ?] ?], b as [[? ?] ?], c as [[? ?] ?]. cbn. lia. Qed.

Lemma lexlt_total (a b : Z * Z * Z) : lexlt a b \/ a = b \/ lexlt b a.
Proof.
  destruct a as [[a1 a2] a3], b as [[b1 b2] b3]. cbn.
  destruct (Z.lt_trichotomy a1 b1) as [?|[?|?]]; [lia| |lia].
  destruct (Z.lt_trichotomy a2 b2) as [?|[?|?]]; [lia| |lia].
  destruct (Z.lt_trichotomy a3 b3) as [?|[?|?]]; [lia| |lia].
  right. left. congruence.
Qed.

Lemma leb_trans (a b c : float) :
  (a <=? b) = true -> (b <=? c) = true -> (a <=? c) = true.
Proof.
  rewrite !leb_ranks.
  intros (ka & kb & Ha & Hb & H1) (kb' & kc & Hb' & Hc & H2).
  rewrite Hb in Hb'. injection Hb' as <-.
  exists ka, kc. repeat split; try assumption.
  destruct H1 as [H1| ->], H2 as [H2| <-]; auto.
  left. eapply lexlt_trans; eassumption.
Qed.

Lemma leb_ltb_trans (a b c : float) :
  (a <=? b) = true -> (b <? c) = true -> (a <? c) = true.
Proof.
  rewrite leb_ranks, !ltb_ranks.
  intros (ka & kb & Ha & Hb & H1) (kb' & kc & Hb' & Hc & H2).
  rewrite Hb in Hb'. injection Hb' as <-.
  exists ka, kc. repeat split; try assumption.
  destruct H1 as [H1| ->]; auto.
  eapply lexlt_trans; eassumption.
Qed.

Lemma ltb_leb (a b : float) : (a <? b) = true -> (a <=? b) = true.
Proof.
  rewrite leb_ranks, ltb_ranks. intros (ka & kb & Ha & Hb & H).
  exists ka, kb. auto.
Qed.

Lemma leb_NaN_r (x a : float) : isNaN a = true -> (x <=? a) = false.
Proof.
  intros H. destruct (x <=? a) eqn:E; [|reflexivity].
  apply leb_ranks in E as (kx & ka & _ & Ha & _).
  assert (N : isNaN a = false) by (apply isNaN_rank; now exists ka).
  congruence.
Qed.

(** A lower bound of [Math.min(a, b)] is a lower bound of [a] and of [b]. *)
Lemma leb_mathMin (x a b : float) :
  (x <=? mathMin a b) = true -> (x <=? a) = true /\ (x <=? b) = true.
Proof.
  unfold mathMin.
  destruct (isNaN a) eqn:Na; [intros H; now rewrite leb_NaN_r in H|].
  destruct (isNaN b) eqn:Nb; [intros H; now rewrite leb_NaN_r in H|].
  apply isNaN_rank in Na as [ka Ha]. apply isNaN_rank in Nb as [kb Hb].
  destruct (a <? b) eqn:L1.
  { intros H. split; [exact H|]. eapply leb_trans; [exact H|now apply ltb_leb]. }
  destruct (b <? a) eqn:L2.
  { intros H. split; [|exact H]. eapply leb_trans; [exact H|now apply ltb_leb]. }
  assert (E : ka = kb).
  { destruct (lexlt_total ka kb) as [H|[H|H]]; [|exact H|].
    - assert (T : (a <? b) = true) by (apply ltb_ranks; now exists ka, kb).
      congruence.
    - assert (T : (b <? a) = true) by (apply ltb_ranks; now exists kb, ka).
      congruence. }
  subst kb.
  assert (Eab : (a <=? b) = true) by (apply leb_ranks; exists ka, ka; auto).
  assert (Eba : (b <=? a) = true) by (apply leb_ranks; exists ka, ka; auto).
  destruct (1 / a <? 0); intros H; split; try exact H;
    eapply leb_trans; eassumption.
Qed.

(** ** What the steps of [verifyLabel] leave behind *)

Ltac split_on_match :=
  try match goal with
      | |- context [negb (FieldVerification.matches ?v)] =>
          destruct (FieldVerification.matches v) eqn:M; cbn [negb]
      end.

Ltac grown := first [reflexivity | symmetry; apply app_nil_r].

Ltac step_cases_in H :=
  repeat match type of H with
         | context [if ?b then _ else _] => destruct b
         end;
  discriminate H.

Ltac traced_end :=
  cbn [forallb];
  try match goal with
      | H : FieldVerification.matches _ = _ |- _ => rewrite H
      end;
  cbn [andb]; intros;
  first [reflexivity | discriminate | left; discriminate | right; discriminate].

Ltac traced_parts :=
  do 3 eexists;
  split; [grown|split; [grown|split; [grown|split; traced_end]]].

Ltac traced_by_cases :=
  intros a; cbv zeta; split_on_match; step_cases;
  cbn [Acc.fieldVerifications Acc.flaggedIssues Acc.humanReviewReasons
       Acc.pushField Acc.flag Acc.review negb];
  traced_parts.

Lemma brandNameStep_traced app e : traced (brandNameStep app e).
Proof. unfold brandNameStep. traced_by_cases. Qed.

Lemma classTypeStep_traced app e : traced (classTypeStep app e).
Proof. unfold classTypeStep. traced_by_cases. Qed.

Lemma alcoholStep_traced app e : traced (alcoholStep app e).
Proof. unfold alcoholStep. traced_by_cases. Qed.

Lemma netContentsStep_traced app e : traced (netContentsStep app e).
Proof. unfold netContentsStep. traced_by_cases. Qed.

Lemma fillSizeStep_traced app : traced (fillSizeStep app).
Proof. unfold fillSizeStep. traced_by_cases. Qed.

Lemma producerStep_traced app e : traced (producerStep app e).
Proof. unfold producerStep. traced_by_cases. Qed.

Lemma countryStep_traced app e : traced (countryStep app e).
Proof. unfold countryStep. traced_by_cases. Qed.

Lemma vintageStep_traced app e : traced (vintageStep app e).
Proof. unfold vintageStep. traced_by_cases. Qed.

Lemma appellationStep_traced app e : traced (appellationStep app e).
Proof. unfold appellationStep. traced_by_cases. Qed.

Lemma traced_compose (f g : Acc.t -> Acc.t) :
  traced f -> traced g -> traced (fun a => g (f a)).
Proof.
  intros Hf Hg a.
  destruct (Hf a) as (vs1 & fl1 & rs1 & F1 & G1 & R1 & T1 & U1).
  destruct (Hg (f a)) as (vs2 & fl2 & rs2 & F2 & G2 & R2 & T2 & U2).
  exists (vs1 ++ vs2), (fl1 ++ fl2), (rs1 ++ rs2).
  rewrite F2, F1, G2, G1, R2, R1, !app_assoc, forallb_app.
  repeat split.
  - intros H. apply andb_prop in H as [H1 H2].
    now rewrite (T1 H1), (T2 H2).
  - intros H. apply andb_false_iff in H as [H|H].
    + destruct (U1 H) as [N|N]; [left|right]; intros E;
        apply app_eq_nil in E as [E _]; contradiction.
    + destruct (U2 H) as [N|N]; [left|right]; intros E;
        apply app_eq_nil in E as [_ E]; contradiction.
Qed.

Lemma fieldComparisons_traced (app : ApplicationData.t) (e : ExtractedLabelData.t) :
  traced (fun a =>
    appellationStep app e (vintageStep app e (countryStep app e (producerStep app e
      (fillSizeStep app (netContentsStep app e (alcoholStep app e
        (classTypeStep app e (brandNameStep app e a))))))))).
Proof.
  repeat (apply (traced_compose _ _); [|
    first [ apply appellationStep_traced | apply vintageStep_traced
          | apply countryStep_traced | apply producerStep_traced
          | apply fillSizeStep_traced | apply netContentsStep_traced
          | apply alcoholStep_traced | apply classTypeStep_traced ]]).
  apply brandNameStep_traced.
Qed.

Lemma warningStep_clean (wv : WarningValidation.t) (a : Acc.t) :
  WarningValidation.present wv = true -> WarningValidation.correct wv = true ->
  warningStep wv a = a.
Proof. intros P C. unfold warningStep. now rewrite P, C. Qed.

(** The warning and image-quality steps add no field and only append to the
    other two arrays. *)
Lemma warningStep_grows (wv : WarningValidation.t) (a : Acc.t) :
  exists fl rs,
    Acc.fieldVerifications (warningStep wv a) = Acc.fieldVerifications a
    /\ Acc.flaggedIssues (warningStep wv a) = Acc.flaggedIssues a ++ fl
    /\ Acc.humanReviewReasons (warningStep wv a) = Acc.humanReviewReasons a ++ rs.
Proof.
  unfold warningStep. step_cases;
    cbn [Acc.fieldVerifications Acc.flaggedIssues Acc.humanReviewReasons
         Acc.flag Acc.review];
    do 2 eexists; (split; [reflexivity|split; grown]).
Qed.

Lemma imageQualityStep_grows (e : ExtractedLabelData.t) (a : Acc.t) :
  exists rs,
    Acc.fieldVerifications (imageQualityStep e a) = Acc.fieldVerifications a
    /\ Acc.flaggedIssues (imageQualityStep e a) = Acc.flaggedIssues a
    /\ Acc.humanReviewReasons (imageQualityStep e a) = Acc.humanReviewReasons a ++ rs.
Proof.
  unfold imageQualityStep. step_cases;
    cbn [Acc.fieldVerifications Acc.flaggedIssues Acc.humanReviewReasons
         Acc.flag Acc.review];
    eexists; (split; [reflexivity|split; grown]).
Qed.

Lemma determineStatus_reasons_grow (wv : WarningValidation.t)
      (fvs : list FieldVerification.t) (oc : float) (reasons : list jsstring) :
  exists rs,
    Decision.humanReviewReasons (determineStatus wv fvs oc reasons) = reasons ++ rs.
Proof.
  unfold determineStatus. cbv zeta. step_cases;
    cbn [Decision.humanReviewReasons]; eexists; grown.
Qed.

Lemma filter_all (A : Type) (f : A -> bool) (l : list A) :
  List.length (List.filter f l) = List.length l <-> forallb f l = true.
Proof.
  induction l as [|x l IH]; cbn; [tauto|].
  pose proof (filter_length_le f l) as B.
  destruct (f x); cbn.
  - rewrite <- IH. split; [now intros [= H]|now intros ->].
  - split; [lia|discriminate].
Qed.

Lemma enhanced_correct_present (e : ExtractedLabelData.t) :
  WarningValidation.correct (validateGovernmentWarningEnhanced e) = true ->
  WarningValidation.present (validateGovernmentWarningEnhanced e) = true.
Proof.
  unfold validateGovernmentWarningEnhanced.
  destruct (WarningCheck.present
              (validateGovernmentWarning (ExtractedLabelData.governmentWarning e)));
    cbn [negb WarningValidation.correct WarningValidation.present];
    [reflexivity|discriminate].
Qed.

(** What has been collected when the status is determined. *)
Lemma collected_summary (app : ApplicationData.t) (e : ExtractedLabelData.t) :
  exists fl rs wfl wrs,
    Acc.flaggedIssues (collected app e) = fl ++ wfl
    /\ Acc.humanReviewReasons (collected app e) = rs ++ wrs
    /\ (forallb FieldVerification.matches (Acc.fieldVerifications (collected app e))
        = true -> fl = [])
    /\ (forallb FieldVerification.matches (Acc.fieldVerifications (collected app e))
        = false -> fl <> [] \/ rs <> [])
    /\ (WarningValidation.correct (validateGovernmentWarningEnhanced e) = true ->
        wfl = []).
Proof.
  unfold collected, fieldComparisons.
  destruct (fieldComparisons_traced app e Acc.empty)
    as (vs & fl & rs & F & G & R & T & U).
  cbn beta in F, G, R.
  set (a := appellationStep app e _) in *.
  set (wv := validateGovernmentWarningEnhanced e).
  destruct (imageQualityStep_grows e (warningStep wv a)) as (irs & IF & IG & IR).
  rewrite IF, IG, IR.
  destruct (WarningValidation.correct wv) eqn:C.
  - rewrite (warningStep_clean wv a (enhanced_correct_present e C) C).
    exists fl, rs, [], irs. rewrite F, G, R, app_nil_r. cbn [List.app Acc.empty
      Acc.fieldVerifications Acc.flaggedIssues Acc.humanReviewReasons].
    repeat split; auto.
  - destruct (warningStep_grows wv a) as (wfl & wrs & WF & WG & WR).
    rewrite WF, WG, WR, F, G, R.
    exists fl, rs, wfl, (wrs ++ irs). cbn [List.app Acc.empty
      Acc.fieldVerifications Acc.flaggedIssues Acc.humanReviewReasons].
    rewrite app_assoc. repeat split; auto. discriminate.
Qed.

Lemma determineStatus_review (wv : WarningValidation.t)
      (fvs : list FieldVerification.t) (oc : float) (reasons : list jsstring) :
  let d := determineStatus wv fvs oc reasons in
  Decision.requiresHumanReview d
  = negb (List.length (Decision.humanReviewReasons d) =? 0)%nat
  /\ (Decision.status d = needs_review -> Decision.requiresHumanReview d = true).
Proof.
  unfold determineStatus. cbv zeta.
  destruct (oc <? CONFIDENCE_THRESHOLDS.humanReviewThreshold) eqn:L;
    destruct reasons as [|r0 reasons];
    cbn [List.length Nat.ltb Nat.leb Nat.eqb orb andb existsb negb];
    step_cases;
    cbn [Decision.requiresHumanReview Decision.humanReviewReasons Decision.status
         List.length List.app Nat.eqb negb];
    rewrite ?length_app; cbn [List.length];
    split; try reflexivity; try discriminate;
    try (rewrite Nat.add_comm; reflexivity).
Qed.

(** ** Invariants of the verification result *)

(** X1: a result is [approved] exactly when every field matched, the warning
    validated as correct, the overall confidence is at least 0.85 and no
    review reason had been collected: nothing else can withhold approval. *)
Theorem approved_exactly_when
        (app : ApplicationData.t) (e : ExtractedLabelData.t)
        (t : float) (id ts : jsstring) :
  let r := verifyLabel app e t id ts in
  VerificationResult.status r = approved <->
  VerificationResult.matchedFields r = VerificationResult.totalFields r /\
  VerificationResult.governmentWarningCorrect r = true /\
  (0.85 <=? VerificationResult.overallConfidence r) = true /\
  Acc.humanReviewReasons (collected app e) = [].
Proof.
  intros r. subst r. unfold verifyLabel.
  cbn [VerificationResult.status VerificationResult.matchedFields
       VerificationResult.totalFields VerificationResult.governmentWarningCorrect
       VerificationResult.overallConfidence].
  split.
  - intros H. apply determineStatus_approved in H as (H1 & H2 & H3 & H4 & _).
    auto.
  - intros (H1 & H2 & H3 & H4).
    pose proof (criticalFailures_collected app e
                  (validateGovernmentWarningEnhanced e)) as CF.
    pose proof H1 as A. unfold matchedFieldsOf in A. apply filter_all in A.
    destruct (collected_fields app e) as (v & rest & F & _).
    rewrite F in A. cbn [forallb] in A.
    apply andb_prop in A as [Mb A]. apply andb_prop in A as [_ A].
    apply andb_prop in A as [Ma _].
    rewrite Mb, Ma, H2, (enhanced_correct_present e H2) in CF.
    unfold determineStatus. cbv zeta. rewrite CF, H1, H2, H4.
    unfold CONFIDENCE_THRESHOLDS.autoApprovalMinimum.
    rewrite H3, Nat.eqb_refl. reflexivity.
Qed.

Lemma approved_exactly_when_witness :
  VerificationResult.status
    (verifyLabel sampleApplication (sampleLabel (Some GOVERNMENT_WARNING_TEXT) 0.95)
                 1000 [] [])
  = approved.
Proof.
  apply (approved_exactly_when sampleApplication
           (sampleLabel (Some GOVERNMENT_WARNING_TEXT) 0.95) 1000 [] []).
  vm_compute. repeat split; reflexivity.
Defined.

(** X2: a label whose extraction confidence is below 0.85, or is not a
    number, is never approved, whatever its fields say. *)
Theorem low_extraction_confidence_never_approved
        (app : ApplicationData.t) (e : ExtractedLabelData.t)
        (t : float) (id ts : jsstring) :
  (0.85 <=? ExtractedLabelData.confidence e) = false ->
  VerificationResult.status (verifyLabel app e t id ts) <> approved.
Proof.
  intros H A. unfold verifyLabel in A. cbn [VerificationResult.status] in A.
  apply determineStatus_approved in A as (_ & _ & A & _).
  unfold overallConfidenceOf in A. apply leb_mathMin in A as [_ A]. congruence.
Qed.

Lemma low_extraction_confidence_never_approved_witness :
  VerificationResult.status
    (verifyLabel sampleApplication (sampleLabel (Some GOVERNMENT_WARNING_TEXT) 0.84)
                 1000 [] [])
  <> approved.
Proof.
  apply low_extraction_confidence_never_approved. reflexivity.
Defined.

(** X3: an approved result carries no flagged issue and does not ask for
    human review, and its warning is reported present. *)
Theorem approved_is_unflagged
        (app : ApplicationData.t) (e : ExtractedLabelData.t)
        (t : float) (id ts : jsstring) :
  let r := verifyLabel app e t id ts in
  VerificationResult.status r = approved ->
  VerificationResult.flaggedIssues r = [] /\
  VerificationResult.requiresHumanReview r = false /\
  VerificationResult.governmentWarningPresent r = true.
Proof.
  intros r H. subst r. unfold verifyLabel in *.
  cbn [VerificationResult.status VerificationResult.flaggedIssues
       VerificationResult.requiresHumanReview
       VerificationResult.governmentWarningPresent] in *.
  pose proof (determineStatus_review (validateGovernmentWarningEnhanced e)
                (Acc.fieldVerifications (collected app e))
                (overallConfidenceOf e (Acc.fieldVerifications (collected app e)))
                (Acc.humanReviewReasons (collected app e))) as [R _].
  apply determineStatus_approved in H as (H1 & H2 & _ & _ & H5 & _).
  split; [|split].
  - destruct (collected_summary app e) as (fl & rs & wfl & wrs & G & _ & T & _ & W).
    apply filter_all in H1. rewrite G, (T H1), (W H2). reflexivity.
  - rewrite R, H5. reflexivity.
  - now apply enhanced_correct_present.
Qed.

Lemma approved_is_unflagged_witness :
  let r := verifyLabel sampleApplication (sampleLabel (Some GOVERNMENT_WARNING_TEXT) 0.95)
                       1000 [] [] in
  VerificationResult.flaggedIssues r = [] /\
  VerificationResult.requiresHumanReview r = false /\
  VerificationResult.governmentWarningPresent r = true.
Proof.
  apply (approved_is_unflagged sampleApplication
           (sampleLabel (Some GOVERNMENT_WARNING_TEXT) 0.95) 1000 [] []).
  vm_compute. reflexivity.
Defined.

(** X4: a field that failed to match never goes unexplained: when fewer
    fields matched than were compared, the result carries a flagged issue or
    a human-review reason. *)
Theorem mismatch_leaves_a_trace
        (app : ApplicationData.t) (e : ExtractedLabelData.t)
        (t : float) (id ts : jsstring) :
  let r := verifyLabel app e t id ts in
  (VerificationResult.matchedFields r < VerificationResult.totalFields r)%nat ->
  VerificationResult.flaggedIssues r <> [] \/
  VerificationResult.humanReviewReasons r <> [].
Proof.
  intros r H. subst r. unfold verifyLabel in *.
  cbn [VerificationResult.matchedFields VerificationResult.totalFields
       VerificationResult.flaggedIssues VerificationResult.humanReviewReasons] in *.
  destruct (collected_summary app e) as (fl & rs & wfl & wrs & G & R & _ & U & _).
  destruct (determineStatus_reasons_grow (validateGovernmentWarningEnhanced e)
              (Acc.fieldVerifications (collected app e))
              (overallConfidenceOf e (Acc.fieldVerifications (collected app e)))
              (Acc.humanReviewReasons (collected app e))) as [drs D].
  rewrite D, G, R.
  assert (N : forallb FieldVerification.matches
                (Acc.fieldVerifications (collected app e)) = false).
  { destruct (forallb _ _) eqn:A; [|reflexivity].
    apply filter_all in A. unfold matchedFieldsOf in H. lia. }
  destruct (U N) as [X|X]; [left|right]; intros E.
  - apply app_eq_nil in E as [E _]. contradiction.
  - apply app_eq_nil in E as [E _]. apply app_eq_nil in E as [E _]. contradiction.
Qed.

Lemma mismatch_leaves_a_trace_witness :
  let r := verifyLabel sampleApplication
             (sampleLabelWithAlcohol (js "40% Alc./Vol.") 0.95) 1000 [] [] in
  VerificationResult.flaggedIssues r <> [] \/
  VerificationResult.humanReviewReasons r <> [].
Proof.
  apply (mismatch_leaves_a_trace sampleApplication
           (sampleLabelWithAlcohol (js "40% Alc./Vol.") 0.95) 1000 [] []).
  vm_compute. lia.
Defined.

(** X5: [requiresHumanReview] is set exactly when the result carries a
    human-review reason, and a [needs_review] result always carries one. *)
Theorem review_flag_matches_reasons
        (app : ApplicationData.t) (e : ExtractedLabelData.t)
        (t : float) (id ts : jsstring) :
  let r := verifyLabel app e t id ts in
  VerificationResult.requiresHumanReview r
  = negb (List.length (VerificationResult.humanReviewReasons r) =? 0)%nat
  /\ (VerificationResult.status r = needs_review ->
      VerificationResult.humanReviewReasons r <> []).
Proof.
  intros r. subst r. unfold verifyLabel.
  cbn [VerificationResult.status VerificationResult.requiresHumanReview
       VerificationResult.humanReviewReasons].
  pose proof (determineStatus_review (validateGovernmentWarningEnhanced e)
                (Acc.fieldVerifications (collected app e))
                (overallConfidenceOf e (Acc.fieldVerifications (collected app e)))
                (Acc.humanReviewReasons (collected app e))) as [R N].
  cbv zeta in R, N. split; [exact R|].
  intros H E. specialize (N H). rewrite R, E in N. discriminate.
Qed.

Lemma review_flag_matches_reasons_witness :
  VerificationResult.humanReviewReasons
    (verifyLabel sampleApplication (sampleLabel (Some GOVERNMENT_WARNING_TEXT) 0.5)
                 1000 [] [])
  <> [].
Proof.
  apply (proj2 (review_flag_matches_reasons sampleApplication
                  (sampleLabel (Some GOVERNMENT_WARNING_TEXT) 0.5) 1000 [] [])).
  vm_compute. reflexivity.
Defined.

(** ** How many fields are compared, and which *)

Ltac adds_by_cases :=
  intros a; cbv zeta; step_cases;
  cbn [Acc.fieldVerifications Acc.pushField Acc.flag Acc.review];
  eexists; (split; [grown|cbn [List.length]; lia]).

Lemma brandNameStep_adds app e : adds 1 1 (brandNameStep app e).
Proof. unfold brandNameStep. adds_by_cases. Qed.

Lemma classTypeStep_adds app e : adds 1 1 (classTypeStep app e).
Proof. unfold classTypeStep. adds_by_cases. Qed.

Lemma alcoholStep_adds app e : adds 1 1 (alcoholStep app e).
Proof. unfold alcoholStep. adds_by_cases. Qed.

Lemma netContentsStep_adds app e : adds 1 1 (netContentsStep app e).
Proof. unfold netContentsStep. adds_by_cases. Qed.

Lemma fillSizeStep_adds app : adds 0 0 (fillSizeStep app).
Proof. unfold fillSizeStep. adds_by_cases. Qed.

Lemma producerStep_adds app e : adds 1 1 (producerStep app e).
Proof. unfold producerStep. adds_by_cases. Qed.

Lemma countryStep_adds app e : adds 0 1 (countryStep app e).
Proof. unfold countryStep. adds_by_cases. Qed.

Lemma vintageStep_adds app e : adds 0 1 (vintageStep app e).
Proof. unfold vintageStep. adds_by_cases. Qed.

Lemma appellationStep_adds app e : adds 0 1 (appellationStep app e).
Proof. unfold appellationStep. adds_by_cases. Qed.

Lemma vintageStep_not_wine app e a :
  ApplicationData.beverageType app <> wine -> vintageStep app e a = a.
Proof.
  intros H. unfold vintageStep, isWine.
  destruct (ApplicationData.beverageType app); [contradiction| |]; reflexivity.
Qed.

Lemma appellationStep_not_wine app e a :
  ApplicationData.beverageType app <> wine -> appellationStep app e a = a.
Proof.
  intros H. unfold appellationStep, isWine.
  destruct (ApplicationData.beverageType app); [contradiction| |]; reflexivity.
Qed.

Lemma adds_compose (n1 m1 n2 m2 : nat) (f g : Acc.t -> Acc.t) :
  adds n1 m1 f -> adds n2 m2 g -> adds (n1 + n2) (m1 + m2) (fun a => g (f a)).
Proof.
  intros Hf Hg a. destruct (Hf a) as (l1 & F1 & B1).
  destruct (Hg (f a)) as (l2 & F2 & B2).
  exists (l1 ++ l2). rewrite F2, F1, app_assoc, length_app. split; [reflexivity|lia].
Qed.

Lemma collected_fields_are_compared (app : ApplicationData.t) (e : ExtractedLabelData.t) :
  Acc.fieldVerifications (collected app e)
  = Acc.fieldVerifications (fieldComparisons app e).
Proof.
  unfold collected.
  destruct (imageQualityStep_grows e
              (warningStep (validateGovernmentWarningEnhanced e) (fieldComparisons app e)))
    as (irs & IF & _).
  destruct (warningStep_grows (validateGovernmentWarningEnhanced e)
              (fieldComparisons app e)) as (wfl & wrs & WF & _).
  now rewrite IF, WF.
Qed.

Lemma mandatory_fields_added (app : ApplicationData.t) (e : ExtractedLabelData.t) :
  adds 5 5 (fun a =>
    producerStep app e (fillSizeStep app (netContentsStep app e (alcoholStep app e
      (classTypeStep app e (brandNameStep app e a)))))).
Proof.
  apply (adds_compose 4 4 1 1); [|apply producerStep_adds].
  apply (adds_compose 4 4 0 0); [|apply fillSizeStep_adds].
  apply (adds_compose 3 3 1 1); [|apply netContentsStep_adds].
  apply (adds_compose 2 2 1 1); [|apply alcoholStep_adds].
  apply (adds_compose 1 1 1 1); [|apply classTypeStep_adds].
  apply brandNameStep_adds.
Qed.

(** X6: every result counts between five and eight compared fields, at most
    six unless the beverage is wine, and never more matched fields than
    compared ones; so the mean field confidence is never a division by
    zero. *)
Theorem field_counts
        (app : ApplicationData.t) (e : ExtractedLabelData.t)
        (t : float) (id ts : jsstring) :
  let r := verifyLabel app e t id ts in
  (VerificationResult.matchedFields r <= VerificationResult.totalFields r)%nat /\
  (5 <= VerificationResult.totalFields r <= 8)%nat /\
  (ApplicationData.beverageType app <> wine ->
   (VerificationResult.totalFields r <= 6)%nat) /\
  VerificationResult.totalFields r
  = List.length (VerificationResult.fieldVerifications r).
Proof.
  intros r. subst r. unfold verifyLabel.
  cbn [VerificationResult.matchedFields VerificationResult.totalFields
       VerificationResult.fieldVerifications].
  rewrite collected_fields_are_compared. unfold fieldComparisons.
  destruct (mandatory_fields_added app e Acc.empty) as (l5 & F5 & B5).
  cbn beta in F5. set (a5 := producerStep app e _) in *.
  destruct (countryStep_adds app e a5) as (lc & Fc & Bc).
  split; [apply filter_length_le|]. split; [|split; [|reflexivity]].
  - destruct (vintageStep_adds app e (countryStep app e a5)) as (lv & Fv & Bv).
    destruct (appellationStep_adds app e (vintageStep app e (countryStep app e a5)))
      as (la & Fa & Ba).
    rewrite Fa, Fv, Fc, F5, !length_app. cbn [Acc.empty Acc.fieldVerifications
      List.length]. lia.
  - intros W. rewrite (appellationStep_not_wine app e _ W),
      (vintageStep_not_wine app e _ W), Fc, F5, !length_app.
    cbn [Acc.empty Acc.fieldVerifications List.length]. lia.
Qed.

Lemma field_counts_witness :
  (VerificationResult.totalFields
     (verifyLabel sampleApplication (sampleLabel (Some GOVERNMENT_WARNING_TEXT) 0.95)
                  1000 [] []) <= 6)%nat.
Proof.
  apply (proj1 (proj2 (proj2 (field_counts sampleApplication
           (sampleLabel (Some GOVERNMENT_WARNING_TEXT) 0.95) 1000 [] [])))).
  discriminate.
Defined.

Lemma mandatory_steps_same (app1 app2 : ApplicationData.t) (e : ExtractedLabelData.t)
      (a : Acc.t) :
  sameComparedFields app1 app2 ->
  countryStep app1 e (producerStep app1 e (fillSizeStep app1 (netContentsStep app1 e
    (alcoholStep app1 e (classTypeStep app1 e (brandNameStep app1 e a))))))
  = countryStep app2 e (producerStep app2 e (fillSizeStep app2 (netContentsStep app2 e
      (alcoholStep app2 e (classTypeStep app2 e (brandNameStep app2 e a)))))).
Proof.
  intros (H1 & H2 & H3 & H4 & H5 & H6 & H7).
  assert (B : brandNameStep app1 e a = brandNameStep app2 e a)
    by (unfold brandNameStep, brandNameVerification; now rewrite H1).
  rewrite B. generalize (brandNameStep app2 e a). intros a1.
  assert (C : classTypeStep app1 e a1 = classTypeStep app2 e a1)
    by (unfold classTypeStep; now rewrite H2).
  rewrite C. generalize (classTypeStep app2 e a1). intros a2.
  assert (A : alcoholStep app1 e a2 = alcoholStep app2 e a2)
    by (unfold alcoholStep, alcoholVerification; now rewrite H3, H4).
  rewrite A. generalize (alcoholStep app2 e a2). intros a3.
  assert (N : netContentsStep app1 e a3 = netContentsStep app2 e a3)
    by (unfold netContentsStep; now rewrite H3, H5).
  rewrite N. generalize (netContentsStep app2 e a3). intros a4.
  assert (F : fillSizeStep app1 a4 = fillSizeStep app2 a4)
    by (unfold fillSizeStep; now rewrite H3, H5).
  rewrite F. generalize (fillSizeStep app2 a4). intros a5.
  assert (P : producerStep app1 e a5 = producerStep app2 e a5)
    by (unfold producerStep; now rewrite H6).
  rewrite P. generalize (producerStep app2 e a5). intros a6.
  unfold countryStep. now rewrite H7.
Qed.

Lemma wine_steps_same (app1 app2 : ApplicationData.t) (e : ExtractedLabelData.t)
      (a : Acc.t) :
  ApplicationData.beverageType app1 = ApplicationData.beverageType app2 ->
  ApplicationData.vintageYear app1 = ApplicationData.vintageYear app2 ->
  ApplicationData.appellation app1 = ApplicationData.appellation app2 ->
  appellationStep app1 e (vintageStep app1 e a)
  = appellationStep app2 e (vintageStep app2 e a).
Proof.
  intros H1 H2 H3.
  assert (V : vintageStep app1 e a = vintageStep app2 e a)
    by (unfold vintageStep, isWine; now rewrite H1, H2).
  rewrite V. unfold appellationStep, isWine. now rewrite H1, H3.
Qed.

(** X7: [verifyLabel] never looks at the application's fanciful name, proof
    statement, producer address, health claims, sulfite flag or age
    statement: whatever they hold, the result is the same. *)
Theorem uncompared_application_fields
        (app : ApplicationData.t) (e : ExtractedLabelData.t)
        (t : float) (id ts : jsstring)
        (fancifulName proof : option jsstring) (producerAddress : jsstring)
        (healthClaims : option jsstring) (containsSulfites : option bool)
        (ageStatement : option jsstring) :
  verifyLabel (withUncompared fancifulName proof producerAddress healthClaims
                 containsSulfites ageStatement app) e t id ts
  = verifyLabel app e t id ts.
Proof.
  set (app' := withUncompared _ _ _ _ _ _ app).
  assert (C : collected app' e = collected app e).
  { unfold collected, fieldComparisons.
    rewrite (mandatory_steps_same app' app e Acc.empty)
      by (repeat split; reflexivity).
    now rewrite (wine_steps_same app' app e). }
  unfold verifyLabel. now rewrite C.
Qed.

(** X8: for a beverage that is not wine, the vintage year and the
    appellation of the application are not compared: whatever they hold, the
    result is the same. *)
Theorem wine_fields_only_for_wine
        (app : ApplicationData.t) (e : ExtractedLabelData.t)
        (t : float) (id ts : jsstring) (vintageYear appellation : option jsstring) :
  ApplicationData.beverageType app <> wine ->
  verifyLabel (withWineFields vintageYear appellation app) e t id ts
  = verifyLabel app e t id ts.
Proof.
  intros W. set (app' := withWineFields vintageYear appellation app).
  assert (C : collected app' e = collected app e).
  { unfold collected, fieldComparisons.
    rewrite !appellationStep_not_wine, !vintageStep_not_wine by exact W.
    now rewrite (mandatory_steps_same app' app e Acc.empty)
      by (repeat split; reflexivity). }
  unfold verifyLabel. now rewrite C.
Qed.

Lemma wine_fields_only_for_wine_witness :
  verifyLabel (withWineFields (Some (js "2019")) (Some (js "Napa Valley"))
                 sampleApplication)
              (sampleLabel (Some GOVERNMENT_WARNING_TEXT) 0.95) 1000 [] []
  = verifyLabel sampleApplication
                (sampleLabel (Some GOVERNMENT_WARNING_TEXT) 0.95) 1000 [] [].
Proof.
  apply wine_fields_only_for_wine. discriminate.
Defined.

(** ** The warning validators *)

Lemma trimStart_blank (w : jsstring) :
  forallb isWhiteSpace w = true -> trimStart w = [].
Proof.
  induction w as [|c w IH]; [reflexivity|]. cbn [forallb trimStart].
  intros H. apply andb_prop in H as [H1 H2]. rewrite H1. auto.
Qed.

Lemma trim_blank (w : jsstring) : forallb isWhiteSpace w = true -> trim w = [].
Proof. intros H. unfold trim. now rewrite (trimStart_blank w H). Qed.

Lemma validateGovernmentWarning_absent (w : option jsstring) :
  match w with Some t => forallb isWhiteSpace t = true | None => True end ->
  validateGovernmentWarning w
  = WarningCheck.mk false false (Some (js "Government warning not found on label"))
      (Some [js "Government warning text not found"]).
Proof.
  destruct w as [t|]; [|reflexivity].
  intros H. unfold validateGovernmentWarning. now rewrite (trim_blank t H).
Qed.

(** X9: when the extracted warning is absent, empty or white space only, the
    result reports the warning as not present and not correct, flags
    "Government warning not present" and gives the warning a confidence of
    zero. *)
Theorem absent_warning_is_flagged
        (app : ApplicationData.t) (e : ExtractedLabelData.t)
        (t : float) (id ts : jsstring) :
  match ExtractedLabelData.governmentWarning e with
  | Some w => forallb isWhiteSpace w = true
  | None => True
  end ->
  let r := verifyLabel app e t id ts in
  VerificationResult.governmentWarningPresent r = false /\
  VerificationResult.governmentWarningCorrect r = false /\
  In (js "Government warning not present") (VerificationResult.flaggedIssues r) /\
  WarningValidation.confidence (validateGovernmentWarningEnhanced e) = 0.
Proof.
  intros H r.
  assert (V : validateGovernmentWarningEnhanced e
              = WarningValidation.mk false false
                  [js "Government warning text not found"] 0).
  { unfold validateGovernmentWarningEnhanced.
    now rewrite (validateGovernmentWarning_absent _ H). }
  subst r. unfold verifyLabel.
  cbn [VerificationResult.governmentWarningPresent
       VerificationResult.governmentWarningCorrect VerificationResult.flaggedIssues].
  rewrite V. cbn [WarningValidation.present WarningValidation.correct
                  WarningValidation.confidence].
  repeat split.
  unfold collected. rewrite V.
  destruct (imageQualityStep_grows e
              (warningStep (WarningValidation.mk false false
                              [js "Government warning text not found"] 0)
                           (fieldComparisons app e))) as (irs & _ & G & _).
  rewrite G. unfold warningStep.
  cbn [WarningValidation.present negb Acc.flag Acc.flaggedIssues].
  apply in_or_app. right. now left.
Qed.

Lemma absent_warning_is_flagged_witness :
  In (js "Government warning not present")
     (VerificationResult.flaggedIssues
        (verifyLabel sampleApplication (sampleLabel (Some (js "  ")) 0.95) 1000 [] [])).
Proof.
  apply (absent_warning_is_flagged sampleApplication
           (sampleLabel (Some (js "  ")) 0.95) 1000 [] []).
  reflexivity.
Defined.

Lemma includes_map (f : N -> N) (s p : jsstring) :
  includes s p = true -> includes (List.map f s) (List.map f p) = true.
Proof.
  assert (P : forall p s, startsWith p s = true ->
                          startsWith (List.map f p) (List.map f s) = true).
  { clear. induction p as [|x p IH]; intros [|y s]; cbn; try discriminate; auto.
    intros H. apply andb_prop in H as [H1 H2]. apply N.eqb_eq in H1. subst.
    now rewrite N.eqb_refl, IH. }
  induction s as [|y s IH]; cbn [includes List.map].
  - rewrite !orb_false_r. apply (P p []).
  - intros H. apply orb_prop in H as [H|H].
    + pose proof (P p (y :: s) H) as Q. cbn [List.map] in Q. now rewrite Q.
    + rewrite (IH H). apply orb_true_r.
Qed.

Lemma startsWith_app (p q s : jsstring) :
  startsWith (p ++ q) s = true -> startsWith p s = true.
Proof.
  revert s. induction p as [|x p IH]; intros s; [reflexivity|].
  destruct s as [|y s]; cbn; [discriminate|].
  intros H. apply andb_prop in H as [H1 H2]. rewrite H1. cbn. auto.
Qed.

Lemma includes_app (p q s : jsstring) :
  includes s (p ++ q) = true -> includes s p = true.
Proof.
  induction s as [|y s IH]; cbn [includes].
  - rewrite !orb_false_r. apply startsWith_app.
  - intros H. apply orb_prop in H as [H|H].
    + now rewrite (startsWith_app _ _ _ H).
    + rewrite (IH H). apply orb_true_r.
Qed.

(** X10: the basic validator never calls a warning correct unless the text
    holds the prefix "GOVERNMENT WARNING:" in exactly this spelling and is at
    least 0.95 similar to the mandated text; and a text that holds the prefix
    in title case instead is reported as present, not correct, with the
    title-case diagnosis as its note and only issue. *)
Theorem warning_prefix_must_be_capitals (w : jsstring) :
  (WarningCheck.correct (validateGovernmentWarning (Some w)) = true ->
   includes w (js "GOVERNMENT WARNING:") = true /\
   (0.95 <=? stringSimilarity (normalizeText w) (normalizeText GOVERNMENT_WARNING_TEXT))
   = true)
  /\
  (includes w (js "GOVERNMENT WARNING:") = false ->
   includes w (js "Government Warning:") = true ->
   let issue := quotedPrefix ++ js " must be in ALL CAPS (found " ++ dq
                ++ js "Government Warning:" ++ dq ++ js " in title case)" in
   validateGovernmentWarning (Some w)
   = WarningCheck.mk true false (Some issue) (Some [issue])).
Proof.
  split.
  - unfold validateGovernmentWarning.
    destruct (List.length (trim w) =? 0)%nat; [discriminate|].
    destruct (includes w (js "GOVERNMENT WARNING:")) eqn:P; cbn [negb].
    + cbv zeta. unfold GOVERNMENT_WARNING_RULES.minSimilarity.
      destruct (0.95 <=? _) eqn:S; [intros _; now split|].
      step_cases; discriminate.
    + step_cases; discriminate.
  - intros P T issue. subst issue. unfold validateGovernmentWarning.
    assert (B : (List.length (trim w) =? 0)%nat = false).
    { apply includes_head in T.
      destruct (trim w) as [|x l] eqn:E; [|reflexivity].
      pose proof (trim_nil _ E _ T) as F. vm_compute in F. discriminate. }
    assert (L : includes (toLowerCase w) (js "government warning") = true).
    { apply (includes_app _ (js ":")). apply (includes_map lower_unit) in T.
      exact T. }
    rewrite B, P, L, T. reflexivity.
Qed.

Lemma warning_prefix_must_be_capitals_witness :
  includes GOVERNMENT_WARNING_TEXT (js "GOVERNMENT WARNING:") = true /\
  WarningCheck.correct
    (validateGovernmentWarning (Some (js "Government Warning: drink responsibly")))
  = false.
Proof.
  split.
  - apply (proj1 (warning_prefix_must_be_capitals GOVERNMENT_WARNING_TEXT)).
    vm_compute. reflexivity.
  - rewrite (proj2 (warning_prefix_must_be_capitals
                      (js "Government Warning: drink responsibly")));
      reflexivity.
Defined.

(** Every answer of the basic validator that is not [correct] comes with an
    issue. *)
Lemma basic_incorrect_has_issue (w : option jsstring) :
  WarningCheck.correct (validateGovernmentWarning w) = false ->
  exists i l, WarningCheck.issues (validateGovernmentWarning w) = Some (i :: l).
Proof.
  unfold validateGovernmentWarning.
  destruct w as [w|]; [|intros _; now eexists; eexists].
  cbv zeta. step_cases; cbn [WarningCheck.correct WarningCheck.issues];
    try discriminate; intros _;
    try (now eexists; eexists);
    destruct (missingPhrasesOf (normalizeText w)); cbn; now eexists; eexists.
Qed.

Lemma detailIssues_grows (d : GovernmentWarningDetails.t) (issues : list jsstring) :
  exists l, detailIssues d issues = issues ++ l.
Proof.
  unfold detailIssues. cbv zeta. step_cases; rewrite <- ?app_assoc;
    eexists; grown.
Qed.

(** X11: the enhanced validator reports [correct] exactly when it reports no
    issue at all, and a warning it reports as not present has confidence
    zero. *)
Theorem enhanced_correct_iff_no_issue (e : ExtractedLabelData.t) :
  let v := validateGovernmentWarningEnhanced e in
  (WarningValidation.correct v = true <-> WarningValidation.issues v = []) /\
  (WarningValidation.present v = false -> WarningValidation.confidence v = 0).
Proof.
  cbv zeta. unfold validateGovernmentWarningEnhanced.
  set (b := validateGovernmentWarning (ExtractedLabelData.governmentWarning e)).
  pose proof (basic_incorrect_has_issue (ExtractedLabelData.governmentWarning e)) as I.
  fold b in I.
  destruct (WarningCheck.present b) eqn:P;
    cbn [negb WarningValidation.correct WarningValidation.issues
         WarningValidation.present WarningValidation.confidence].
  - split; [|discriminate]. split.
    + intros H. apply andb_prop in H as [_ H].
      apply Nat.eqb_eq in H. now apply length_zero_iff_nil.
    + intros H. rewrite H. cbn. rewrite andb_true_r.
      destruct (WarningCheck.correct b) eqn:C; [reflexivity|].
      destruct (I eq_refl) as (i & l & E). rewrite E in H.
      destruct (ExtractedLabelData.governmentWarningDetails e) as [d|];
        [|discriminate].
      destruct (detailIssues_grows d (i :: l)) as [m M]. rewrite M in H.
      discriminate.
  - split; [|reflexivity]. split; [discriminate|].
    destruct (WarningCheck.issues b) as [[|i l]|]; cbn; discriminate.
Qed.

Lemma enhanced_correct_iff_no_issue_witness :
  WarningValidation.correct
    (validateGovernmentWarningEnhanced (onlyWarning (Some GOVERNMENT_WARNING_TEXT) 0.95))
  = true
  /\ WarningValidation.confidence
       (validateGovernmentWarningEnhanced (onlyWarning None 0.95)) = 0.
Proof.
  split.
  - apply (enhanced_correct_iff_no_issue
             (onlyWarning (Some GOVERNMENT_WARNING_TEXT) 0.95)).
    vm_compute. reflexivity.
  - apply (enhanced_correct_iff_no_issue (onlyWarning None 0.95)).
    vm_compute. reflexivity.
Defined.

(** ** The edit distance *)

Lemma levr_upper (a b : jsstring) :
  (levr a b <= Nat.max (List.length a) (List.length b))%nat.
Proof.
  revert b. induction a as [|x a IHa]; intros b.
  - rewrite levr_nil_l. cbn. lia.
  - destruct b as [|y b]; [cbn; lia|].
    rewrite levr_cons. specialize (IHa b).
    unfold min3, cost. cbn [List.length]. destruct (x =? y)%N; lia.
Qed.

Lemma levr_lower (a b : jsstring) :
  (List.length a - List.length b <= levr a b
   /\ List.length b - List.length a <= levr a b)%nat.
Proof.
  revert b. induction a as [|x a IHa]; intros b.
  - rewrite levr_nil_l. cbn. lia.
  - induction b as [|y b IHb]; [cbn; lia|].
    rewrite levr_cons.
    pose proof (IHa (y :: b)) as H1. pose proof (IHa b) as H2.
    unfold min3. cbn [List.length] in *. lia.
Qed.

Lemma levr_zero (a b : jsstring) : levr a b = 0%nat <-> a = b.
Proof.
  revert b. induction a as [|x a IHa]; intros b.
  - rewrite levr_nil_l. destruct b; cbn; split; congruence.
  - destruct b as [|y b]; [cbn; split; congruence|].
    rewrite levr_cons. unfold min3, cost. split.
    + intros H. destruct (N.eqb_spec x y) as [->|N]; [|lia].
      f_equal. apply IHa. lia.
    + intros [= -> ->]. rewrite N.eqb_refl.
      assert (Z : levr b b = 0%nat) by now apply IHa.
      lia.
Qed.

(** X12: the edit distance [stringSimilarity] computes lies between the
    difference of the two lengths and the longer length, so the quotient by
    the longer length is a fraction between 0 and 1. *)
Theorem levenshtein_bounds (s1 s2 : jsstring) :
  (List.length s1 - List.length s2 <= levenshtein s1 s2)%nat /\
  (List.length s2 - List.length s1 <= levenshtein s1 s2)%nat /\
  (levenshtein s1 s2 <= Nat.max (List.length s1) (List.length s2))%nat.
Proof.
  rewrite levenshtein_levr.
  pose proof (levr_lower (rev s1) (rev s2)) as [L1 L2].
  pose proof (levr_upper (rev s1) (rev s2)) as U.
  rewrite !length_rev in *. auto.
Qed.

(** X13: the edit distance is zero exactly for equal strings, and between a
    string and the empty string it is the length of the string. *)
Theorem levenshtein_identity (s1 s2 : jsstring) :
  (levenshtein s1 s2 = 0%nat <-> s1 = s2) /\
  levenshtein s1 [] = List.length s1 /\
  levenshtein [] s2 = List.length s2.
Proof.
  rewrite !levenshtein_levr. split; [|split].
  - rewrite levr_zero. split; [|now intros ->].
    intros H. apply (f_equal (@rev N)) in H. now rewrite !rev_involutive in H.
  - cbn [rev]. now rewrite levr_nil_r, length_rev.
  - cbn [rev]. now rewrite levr_nil_l, length_rev.
Qed.

Lemma levenshtein_identity_witness :
  levenshtein (js "tequila") (js "tequila") = 0%nat.
Proof.
  apply (proj1 (levenshtein_identity (js "tequila") (js "tequila"))).
  reflexivity.
Defined.

(** ** Normalising twice *)







Lemma trimStart_fixed (s : jsstring) :
  (forall c r, s = c :: r -> isWhiteSpace c = false) -> trimStart s = s.
Proof.
  destruct s as [|c r]; [reflexivity|]. intros H. cbn.
  now rewrite (H c r eq_refl).
Qed.



(** ** The comparators *)



Lemma optStreq_refl (u : option jsstring) : optStreq u u = true.
Proof. destruct u; [apply streq_refl|reflexivity]. Qed.

(** X16: net contents compared with themselves match with confidence 1.0,
    whether the text parses or not and whether the container size is a
    standard one or not (the parsed value being a number). *)
Theorem compareNetContents_same (contents : jsstring) (b : BeverageType) :
  match ParsedNetContents.value (parseNetContents contents) with
  | Some v => (v =? v) = true
  | None => True
  end ->
  Comparison.matches (compareNetContents contents contents b) = true /\
  Comparison.confidence (compareNetContents contents contents b) = 1.0.
Proof.
  unfold compareNetContents.
  destruct (ParsedNetContents.value (parseNetContents contents)) as [v|].
  - intros H. cbv zeta. rewrite optStreq_refl, H. split; reflexivity.
  - intros _. rewrite stringSimilarity_same. split; reflexivity.
Qed.

Lemma compareNetContents_same_witness :
  Comparison.matches
    (compareNetContents (js "800 mL") (js "800 mL") distilled_spirits) = true /\
  Comparison.confidence
    (compareNetContents (js "800 mL") (js "800 mL") distilled_spirits) = 1.0.
Proof.
  apply compareNetContents_same. vm_compute. reflexivity.
Defined.

(** ** The parsers *)

Lemma spanDigits_split (s : jsstring) :
  s = fst (spanDigits s) ++ snd (spanDigits s).
Proof.
  induction s as [|c r IH]; [reflexivity|]. cbn [spanDigits].
  destruct (isDigit c); [|reflexivity].
  destruct (spanDigits r) as [d t]. cbn in *. now f_equal.
Qed.

Lemma scanNumber_rest (s int frac rest : jsstring) :
  scanNumber s = Some (int, frac, rest) -> forall c, In c rest -> In c s.
Proof.
  unfold scanNumber. pose proof (spanDigits_split s) as E.
  destruct (spanDigits s) as [[|d ds] r]; [discriminate|]. cbn [fst snd] in E.
  assert (R : forall c, In c r -> In c s).
  { intros c Hc. rewrite E. apply in_or_app. now right. }
  destruct r as [|x r']; [intros [= <- <- <-]; exact R|].
  destruct (N.eqb_spec x 46) as [->|Nx].
  - pose proof (spanDigits_split r') as E'.
    destruct (spanDigits r') as [[|f fs] t]; [intros [= <- <- <-]; exact R|].
    cbn [fst snd] in E'. intros [= <- <- <-] c Hc. apply R. right.
    rewrite E'. apply in_or_app. now right.
  - destruct x as [|p]; [now intros [= <- <- <-]|].
    do 6 (destruct p as [p|p|]; try (now intros [= <- <- <-])).
    congruence.
Qed.

Lemma leftmost_none (A : Type) (at_ : jsstring -> option A) (Q : N -> Prop) :
  (forall t, (forall c, In c t -> Q c) -> at_ t = None) ->
  forall s, (forall c, In c s -> Q c) -> leftmost at_ s = None.
Proof.
  intros F. induction s as [|x s IH]; intros H.
  - cbn. now rewrite (F [] H).
  - cbn [leftmost]. rewrite (F _ H). apply IH. intros c Hc. apply H. now right.
Qed.

Lemma lit_head (p0 : N) (p s r : jsstring) :
  lit (p0 :: p) s = Some r -> exists x t, s = x :: t /\ unitEqCI p0 x = true.
Proof.
  unfold lit. destruct s as [|x t]; cbn [startsWithCI]; [discriminate|].
  destruct (unitEqCI p0 x) eqn:E; [|discriminate]. intros _. now exists x, t.
Qed.

Lemma percentQualifier_needs_a (q : jsstring) :
  percentQualifier q = true -> exists c, In c q /\ upper_ascii c = 65%N.
Proof.
  unfold percentQualifier.
  destruct (lit (js "%") q) as [r|] eqn:L; [|discriminate].
  assert (R : forall c, In c r -> In c q).
  { unfold lit in L. destruct (startsWithCI (js "%") q); [|discriminate].
    injection L as <-. intros c Hc. destruct q; [destruct Hc|now right]. }
  cbv zeta.
  assert (T : forall c, In c (trimStart r) -> In c q).
  { intros c Hc. apply R. destruct (trimStart_suffix r) as [p Hp]. rewrite Hp.
    apply in_or_app. now right. }
  intros H.
  assert (A : exists x t, trimStart r = x :: t /\ unitEqCI 97 x = true).
  { destruct (lit (js "alc") (trimStart r)) eqn:L1;
      [now apply lit_head in L1|].
    destruct (lit (js "abv") (trimStart r)) eqn:L2;
      [now apply lit_head in L2|].
    destruct (lit (js "alcohol") (trimStart r)) eqn:L3;
      [now apply lit_head in L3|].
    cbn in H. discriminate. }
  destruct A as (x & t & E & U). exists x. split.
  - apply T. rewrite E. now left.
  - unfold unitEqCI in U. apply N.eqb_eq in U. now rewrite <- U.
Qed.

(** X17: a text without the letter A is never read as a percentage, so a
    bare percentage such as "45%" carries no alcohol content for the
    comparison; likewise a text without the letter P is never read as a
    proof statement. *)
Theorem unqualified_alcohol_is_not_parsed (content : jsstring) :
  ((forall c, In c content -> upper_ascii c <> 65%N) ->
   ParsedAlcohol.percentage (parseAlcoholContent content) = None) /\
  ((forall c, In c content -> upper_ascii c <> 80%N) ->
   ParsedAlcohol.proof (parseAlcoholContent content) = None).
Proof.
  unfold parseAlcoholContent. cbn [ParsedAlcohol.percentage ParsedAlcohol.proof].
  split; intros H.
  - unfold matchPercentage.
    rewrite (leftmost_none _ _ (fun c => upper_ascii c <> 65%N)); [reflexivity| |exact H].
    intros t Ht. destruct (scanNumber t) as [[[int frac] rest]|] eqn:S; [|reflexivity].
    cbn [andThen].
    destruct (percentQualifier (trimStart rest)) eqn:P; [|reflexivity].
    apply percentQualifier_needs_a in P as (c & Hc & U).
    exfalso. apply (Ht c); [|exact U].
    apply (scanNumber_rest _ _ _ _ S).
    destruct (trimStart_suffix rest) as [p Hp]. rewrite Hp.
    apply in_or_app. now right.
  - unfold matchProof.
    rewrite (leftmost_none _ _ (fun c => upper_ascii c <> 80%N)); [reflexivity| |exact H].
    intros t Ht. pose proof (spanDigits_split t) as E.
    destruct (spanDigits t) as [[|d ds] rest]; [reflexivity|]. cbn [fst snd] in E.
    destruct (lit (js "proof") (trimStart rest)) as [r|] eqn:L; [|reflexivity].
    apply lit_head in L as (x & u & Ex & U).
    exfalso. apply (Ht x).
    + rewrite E. apply in_or_app. right.
      destruct (trimStart_suffix rest) as [p Hp]. rewrite Hp, Ex.
      apply in_or_app. right. now left.
    + unfold unitEqCI in U. apply N.eqb_eq in U. now rewrite <- U.
Qed.

Lemma unqualified_alcohol_is_not_parsed_witness :
  ParsedAlcohol.percentage (parseAlcoholContent (js "45%")) = None /\
  ParsedAlcohol.proof (parseAlcoholContent (js "45%")) = None.
Proof.
  split.
  - apply (proj1 (unqualified_alcohol_is_not_parsed (js "45%"))).
    intros c [<-|[<-|[<-|[]]]]; discriminate.
  - apply (proj2 (unqualified_alcohol_is_not_parsed (js "45%"))).
    intros c [<-|[<-|[<-|[]]]]; discriminate.
Defined.

Lemma spanDigits_digits (ds rest : jsstring) :
  forallb isDigit ds = true ->
  match rest with [] => True | c :: _ => isDigit c = false end ->
  spanDigits (ds ++ rest) = (ds, rest).
Proof.
  intros D R. induction ds as [|d ds IH].
  - destruct rest as [|c r]; [reflexivity|]. cbn. now rewrite R.
  - cbn [forallb] in D. apply andb_prop in D as [D1 D2].
    cbn [app spanDigits]. now rewrite D1, (IH D2).
Qed.

Lemma leftmost_found (A : Type) (at_ : jsstring -> option A) (s : jsstring) (r : A) :
  at_ s = Some r -> leftmost at_ s = Some r.
Proof. intros H. destruct s; cbn; now rewrite H. Qed.

(** A number made of digits only, followed by a space and a unit word. *)
Lemma scanNumber_digits (ds unitWord : jsstring) :
  ds <> [] -> forallb isDigit ds = true ->
  scanNumber (ds ++ 32%N :: unitWord) = Some (ds, [], 32%N :: unitWord).
Proof.
  intros N D. unfold scanNumber.
  rewrite (spanDigits_digits ds (32%N :: unitWord) D eq_refl).
  destruct ds; [congruence|reflexivity].
Qed.

Lemma matchMetric_none_before_imperial (ds : jsstring) :
  forallb isDigit ds = true -> matchMetric (ds ++ js " fl oz") = None.
Proof.
  unfold matchMetric. induction ds as [|d ds IH]; intros D; [reflexivity|].
  cbn [forallb] in D. apply andb_prop in D as [D1 D2].
  change ((d :: ds) ++ js " fl oz") with (d :: (ds ++ js " fl oz")).
  cbn [leftmost]. rewrite (IH D2).
  change (d :: (ds ++ js " fl oz")) with ((d :: ds) ++ 32%N :: js "fl oz").
  rewrite scanNumber_digits; [reflexivity|discriminate|].
  cbn [forallb]. now rewrite D1, D2.
Qed.

(** X18: a whole number followed by " L" is read as that many thousand
    millilitres, followed by " mL" as that many millilitres, and followed by
    " fl oz" as that many fluid ounces, left unconverted. *)
Theorem parseNetContents_units (ds : jsstring) :
  ds <> [] -> forallb isDigit ds = true ->
  parseNetContents (ds ++ js " L")
  = ParsedNetContents.mk (Some (parseFloat ds [] * 1000)) (Some (js "ml"))
      (Some (js "L"))
  /\
  parseNetContents (ds ++ js " mL")
  = ParsedNetContents.mk (Some (parseFloat ds [])) (Some (js "ml")) (Some (js "mL"))
  /\
  parseNetContents (ds ++ js " fl oz")
  = ParsedNetContents.mk (Some (parseFloat ds [])) (Some (js "fl oz"))
      (Some (js "fl oz")).
Proof.
  intros N D. unfold parseNetContents. split; [|split].
  - assert (M : matchMetric (ds ++ js " L") = Some (ds, [], js "L")).
    { unfold matchMetric. apply leftmost_found.
      change (js " L") with (32%N :: js "L").
      now rewrite (scanNumber_digits ds (js "L") N D). }
    rewrite M. reflexivity.
  - assert (M : matchMetric (ds ++ js " mL") = Some (ds, [], js "mL")).
    { unfold matchMetric. apply leftmost_found.
      change (js " mL") with (32%N :: js "mL").
      now rewrite (scanNumber_digits ds (js "mL") N D). }
    rewrite M. reflexivity.
  - rewrite (matchMetric_none_before_imperial ds D).
    assert (M : matchImperial (ds ++ js " fl oz") = Some (ds, [], js "fl oz")).
    { unfold matchImperial. apply leftmost_found.
      change (js " fl oz") with (32%N :: js "fl oz").
      now rewrite (scanNumber_digits ds (js "fl oz") N D). }
    rewrite M. reflexivity.
Qed.

Lemma parseNetContents_units_witness :
  parseNetContents (js "750 mL")
  = ParsedNetContents.mk (Some 750) (Some (js "ml")) (Some (js "mL")).
Proof.
  apply (proj1 (proj2 (parseNetContents_units (js "750") ltac:(discriminate)
                         eq_refl))).
Defined.

(** ** Further constraint helpers *)

(** X19: the required type size of the warning is 1, 2 or 3 millimetres and
    never shrinks as the container grows. *)
Theorem getRequiredWarningTypeSize_monotone (v1 v2 : float) :
  (getRequiredWarningTypeSize v1 = 1 \/ getRequiredWarningTypeSize v1 = 2
   \/ getRequiredWarningTypeSize v1 = 3) /\
  ((v1 <=? v2) = true ->
   (getRequiredWarningTypeSize v1 <=? getRequiredWarningTypeSize v2) = true).
Proof.
  unfold getRequiredWarningTypeSize. split.
  - destruct (v1 <=? 237); [auto|]. destruct (v1 <? 3000); auto.
  - intros H.
    destruct (v2 <=? 237) eqn:A2.
    + now rewrite (leb_trans _ _ _ H A2).
    + destruct (v2 <? 3000) eqn:B2.
      * rewrite (leb_ltb_trans _ _ _ H B2). now destruct (v1 <=? 237).
      * destruct (v1 <=? 237); [reflexivity|]. now destruct (v1 <? 3000).
Qed.

Lemma getRequiredWarningTypeSize_monotone_witness :
  (getRequiredWarningTypeSize 237 <=? getRequiredWarningTypeSize 750) = true.
Proof.
  apply (proj2 (getRequiredWarningTypeSize_monotone 237 750)). reflexivity.
Defined.

(** X20: a class/type that contains a wine indicator is inferred to be wine
    whatever else it contains; since "port" is a wine indicator, a class/type
    that contains "porter" is inferred to be wine, never beer. *)
Theorem inferBeverageType_wine_first (classType : jsstring) :
  (forall ind, In ind wineIndicators ->
     includes (toLowerCase classType) ind = true ->
     inferBeverageType (Some classType) = wine) /\
  (includes (toLowerCase classType) (js "porter") = true ->
   inferBeverageType (Some classType) = wine).
Proof.
  assert (W : forall ind, In ind wineIndicators ->
                includes (toLowerCase classType) ind = true ->
                inferBeverageType (Some classType) = wine).
  { intros ind Hin Hinc. unfold inferBeverageType.
    destruct classType as [|c r].
    - exfalso. cbn in Hinc. rewrite orb_false_r in Hinc.
      destruct ind as [|i ind]; [|discriminate].
      unfold wineIndicators in Hin. cbn [In] in Hin.
      repeat (destruct Hin as [Hin|Hin]; [discriminate|]). exact Hin.
    - cbv zeta.
      assert (E : existsb (fun i => includes (toLowerCase (c :: r)) i) wineIndicators
                  = true)
        by (apply existsb_exists; now exists ind).
      now rewrite E. }
  split; [exact W|].
  intros H. apply (W (js "port")).
  - unfold wineIndicators. cbn [In]. do 19 right. now left.
  - apply (includes_app (js "port") (js "er")). exact H.
Qed.

Lemma inferBeverageType_wine_first_witness :
  inferBeverageType (Some (js "Robust Porter")) = wine.
Proof.
  apply (proj2 (inferBeverageType_wine_first (js "Robust Porter"))).
  vm_compute. reflexivity.
Defined.

Lemma trimStart_idempotent (s : jsstring) : trimStart (trimStart s) = trimStart s.
Proof.
  apply trimStart_fixed. intros c r H. now apply trimStart_head in H.
Qed.

Lemma trim_idempotent (s : jsstring) : trim (trim s) = trim s.
Proof.
  unfold trim, trimEnd.
  set (u := trimStart s). set (v := trimStart (rev u)).
  assert (H : trimStart (rev v) = rev v).
  { apply trimStart_fixed. intros c r E.
    destruct (trimStart_suffix (rev u)) as [p Hp]. fold v in Hp.
    apply (f_equal (@rev N)) in Hp. rewrite rev_involutive, rev_app_distr, E in Hp.
    cbn in Hp. exact (trimStart_head s (r ++ rev p) c Hp). }
  rewrite H, rev_involutive. unfold v. now rewrite trimStart_idempotent.
Qed.

(** X21: a string that [cleanValue] keeps is the trimmed input, is neither
    empty nor one of the "not found" markers, and is kept unchanged when
    cleaned again; an empty or blank string becomes absent. *)
Theorem cleanValue_strings (s : jsstring) :
  (forall r, cleanValue (JString s) = Some r ->
     r = trim s /\ truthy (Some r) = true /\
     r <> js "NOT_FOUND" /\ r <> js "NOT_READABLE" /\ r <> js "null" /\
     cleanValue (JString r) = Some r) /\
  (forallb isWhiteSpace s = true -> cleanValue (JString s) = None).
Proof.
  split.
  - intros r. unfold cleanValue. cbv zeta.
    destruct (streq (trim s) []) eqn:E1; [discriminate|].
    destruct (streq (trim s) (js "NOT_FOUND")) eqn:E2; [discriminate|].
    destruct (streq (trim s) (js "NOT_READABLE")) eqn:E3; [discriminate|].
    destruct (streq (trim s) (js "null")) eqn:E4; [discriminate|].
    cbn [orb]. intros [= <-]. rewrite trim_idempotent, E1, E2, E3, E4.
    repeat split.
    + destruct (trim s); [discriminate|reflexivity].
    + intros H. rewrite H in E2. discriminate.
    + intros H. rewrite H in E3. discriminate.
    + intros H. rewrite H in E4. discriminate.
  - intros H. unfold cleanValue. now rewrite (trim_blank s H).
Qed.

Lemma cleanValue_strings_witness :
  cleanValue (JString (js "750 mL")) = Some (js "750 mL") /\
  cleanValue (JString (js "   ")) = None.
Proof.
  split.
  - destruct (proj1 (cleanValue_strings (js " 750 mL ")) (js "750 mL") eq_refl)
      as (_ & _ & _ & _ & _ & H).
    exact H.
  - apply (proj2 (cleanValue_strings (js "   "))). reflexivity.
Defined.

(** ** What [verifyLabel] reads of the label *)

Lemma collected_same_label (app : ApplicationData.t) (e1 e2 : ExtractedLabelData.t) :
  sameReadFields e1 e2 ->
  validateGovernmentWarningEnhanced e1 = validateGovernmentWarningEnhanced e2 /\
  collected app e1 = collected app e2.
Proof.
  intros (H1 & H2 & H3 & H4 & H5 & H6 & H7 & H8 & H9 & H10 & H11 & H12).
  assert (V : validateGovernmentWarningEnhanced e1 = validateGovernmentWarningEnhanced e2)
    by (unfold validateGovernmentWarningEnhanced; now rewrite H9, H10).
  split; [exact V|].
  unfold collected. rewrite V.
  assert (F : fieldComparisons app e1 = fieldComparisons app e2).
  { unfold fieldComparisons.
    assert (B : brandNameStep app e1 Acc.empty = brandNameStep app e2 Acc.empty)
      by (unfold brandNameStep, brandNameVerification; now rewrite H1).
    rewrite B. generalize (brandNameStep app e2 Acc.empty). intros a1.
    assert (C : classTypeStep app e1 a1 = classTypeStep app e2 a1)
      by (unfold classTypeStep; now rewrite H2).
    rewrite C. generalize (classTypeStep app e2 a1). intros a2.
    assert (A : alcoholStep app e1 a2 = alcoholStep app e2 a2)
      by (unfold alcoholStep, alcoholVerification; now rewrite H3).
    rewrite A. generalize (alcoholStep app e2 a2). intros a3.
    assert (N : netContentsStep app e1 a3 = netContentsStep app e2 a3)
      by (unfold netContentsStep; now rewrite H4).
    rewrite N. generalize (fillSizeStep app (netContentsStep app e2 a3)). intros a5.
    assert (P : producerStep app e1 a5 = producerStep app e2 a5)
      by (unfold producerStep; now rewrite H5).
    rewrite P. generalize (producerStep app e2 a5). intros a6.
    assert (O : countryStep app e1 a6 = countryStep app e2 a6)
      by (unfold countryStep; now rewrite H6).
    rewrite O. generalize (countryStep app e2 a6). intros a7.
    assert (Y : vintageStep app e1 a7 = vintageStep app e2 a7)
      by (unfold vintageStep; now rewrite H7).
    rewrite Y. generalize (vintageStep app e2 a7). intros a8.
    unfold appellationStep. now rewrite H8. }
  rewrite F. unfold imageQualityStep. now rewrite H12.
Qed.

(** X22: [verifyLabel] never reads the label's fanciful name, proof
    statement, producer address and role, format-correct flag, sulfite flag,
    age statement, raw text, per-field confidences or extraction notes: but
    for the echoed extracted data, the result does not depend on them. *)
Theorem unread_label_fields
        (app : ApplicationData.t) (e : ExtractedLabelData.t)
        (t : float) (id ts : jsstring)
        (fancifulName proof producerAddress : option jsstring)
        (producerRole : option ProducerRole)
        (formatCorrect containsSulfites : option bool)
        (ageStatement rawText : option jsstring)
        (fieldConfidences : option (list (jsstring * float)))
        (extractionNotes : option jsstring) :
  let e' := withUnread fancifulName proof producerAddress producerRole formatCorrect
              containsSulfites ageStatement rawText fieldConfidences
              extractionNotes e in
  verifyLabel app e' t id ts = withExtractedData e' (verifyLabel app e t id ts).
Proof.
  intros e'.
  destruct (collected_same_label app e' e) as [V C];
    [repeat split; reflexivity|].
  unfold verifyLabel, withExtractedData, overallConfidenceOf. rewrite V, C.
  reflexivity.
Qed.

(** ** A failed alcohol content *)

Lemma traced_keeps_flags (step : Acc.t -> Acc.t) (a : Acc.t) (x : jsstring) :
  traced step -> In x (Acc.flaggedIssues a) -> In x (Acc.flaggedIssues (step a)).
Proof.
  intros T H. destruct (T a) as (vs & fl & rs & _ & G & _).
  rewrite G. apply in_or_app. now left.
Qed.

Lemma later_steps_keep_flags (app : ApplicationData.t) (e : ExtractedLabelData.t)
      (a : Acc.t) (x : jsstring) :
  In x (Acc.flaggedIssues a) ->
  In x (Acc.flaggedIssues
          (imageQualityStep e
             (warningStep (validateGovernmentWarningEnhanced e)
                (appellationStep app e (vintageStep app e (countryStep app e
                   (producerStep app e (fillSizeStep app
                      (netContentsStep app e a))))))))).
Proof.
  intros A.
  apply (traced_keeps_flags _ _ _ (netContentsStep_traced app e)) in A.
  apply (traced_keeps_flags _ _ _ (fillSizeStep_traced app)) in A.
  apply (traced_keeps_flags _ _ _ (producerStep_traced app e)) in A.
  apply (traced_keeps_flags _ _ _ (countryStep_traced app e)) in A.
  apply (traced_keeps_flags _ _ _ (vintageStep_traced app e)) in A.
  apply (traced_keeps_flags _ _ _ (appellationStep_traced app e)) in A.
  set (a9 := appellationStep app e _) in *.
  set (wv := validateGovernmentWarningEnhanced e).
  destruct (imageQualityStep_grows e (warningStep wv a9)) as (irs & _ & IG & _).
  destruct (warningStep_grows wv a9) as (wfl & wrs & _ & WG & _).
  rewrite IG, WG. apply in_or_app. now left.
Qed.

Lemma alcohol_flag_collected (app : ApplicationData.t) (e : ExtractedLabelData.t) :
  FieldVerification.matches (alcoholVerification app e) = false ->
  In (js "Alcohol content mismatch") (Acc.flaggedIssues (collected app e)).
Proof.
  intros M. unfold collected, fieldComparisons.
  apply later_steps_keep_flags.
  unfold alcoholStep. cbv zeta. rewrite M.
  cbn [negb Acc.flag Acc.flaggedIssues]. apply in_or_app. right. now left.
Qed.

Lemma brand_flag_collected (app : ApplicationData.t) (e : ExtractedLabelData.t) :
  FieldVerification.matches (brandNameVerification app e) = false ->
  (0.70 <=? FieldVerification.confidence (brandNameVerification app e)) = false ->
  In (js "Brand name mismatch") (Acc.flaggedIssues (collected app e)).
Proof.
  intros M L. unfold collected, fieldComparisons.
  apply later_steps_keep_flags.
  apply (traced_keeps_flags _ _ _ (alcoholStep_traced app e)).
  apply (traced_keeps_flags _ _ _ (classTypeStep_traced app e)).
  unfold brandNameStep, BrandNameThresholds.reviewThreshold. cbv zeta.
  rewrite M, L. cbn [negb Acc.flag Acc.flaggedIssues Acc.pushField Acc.empty].
  now left.
Qed.

Lemma incorrect_warning_flag_collected (app : ApplicationData.t)
      (e : ExtractedLabelData.t) :
  WarningValidation.correct (validateGovernmentWarningEnhanced e) = false ->
  Acc.flaggedIssues (collected app e) <> [].
Proof.
  intros C. unfold collected.
  set (wv := validateGovernmentWarningEnhanced e) in *.
  destruct (imageQualityStep_grows e (warningStep wv (fieldComparisons app e)))
    as (irs & _ & IG & _).
  rewrite IG. unfold warningStep. rewrite C.
  destruct (WarningValidation.present wv), (0.85 <=? WarningValidation.confidence wv);
    cbn [negb Acc.flag Acc.review Acc.flaggedIssues];
    intros E; apply app_eq_nil in E as [_ E]; discriminate.
Qed.

(** X23: whenever the alcohol content fails to match, the result flags
    "Alcohol content mismatch" and counts fewer matched than compared
    fields. *)
Theorem alcohol_mismatch_is_flagged
        (app : ApplicationData.t) (e : ExtractedLabelData.t)
        (t : float) (id ts : jsstring) :
  FieldVerification.matches (alcoholVerification app e) = false ->
  let r := verifyLabel app e t id ts in
  In (js "Alcohol content mismatch") (VerificationResult.flaggedIssues r) /\
  (VerificationResult.matchedFields r < VerificationResult.totalFields r)%nat.
Proof.
  intros M r. subst r. unfold verifyLabel.
  cbn [VerificationResult.flaggedIssues VerificationResult.matchedFields
       VerificationResult.totalFields].
  split; [now apply alcohol_flag_collected|].
  destruct (collected_fields app e) as (v & rest & F & _).
  rewrite F. unfold matchedFieldsOf. cbn [List.filter List.length].
  rewrite M.
  pose proof (filter_length_le FieldVerification.matches rest) as L.
  destruct (FieldVerification.matches (brandNameVerification app e)),
    (FieldVerification.matches v); cbn [List.length]; lia.
Qed.

Lemma alcohol_mismatch_is_flagged_witness :
  In (js "Alcohol content mismatch")
     (VerificationResult.flaggedIssues
        (verifyLabel sampleApplication
           (sampleLabelWithAlcohol (js "40% Alc./Vol.") 0.95) 1000 [] [])).
Proof.
  apply (alcohol_mismatch_is_flagged sampleApplication
           (sampleLabelWithAlcohol (js "40% Alc./Vol.") 0.95) 1000 [] []).
  vm_compute. reflexivity.
Defined.

(** ** Rejections *)

Lemma most_fields_when_all (n : nat) :
  (5 <= n <= 8)%nat -> (ofNat n * 0.8 <=? ofNat n) = true.
Proof.
  intros H.
  assert (C : (n = 5 \/ n = 6 \/ n = 7 \/ n = 8)%nat) by lia.
  destruct C as [->|[->|[->| ->]]]; reflexivity.
Qed.

Lemma ltb_true_leb_false (a b : float) : (a <? b) = true -> (b <=? a) = false.
Proof.
  intros H. destruct (b <=? a) eqn:E; [|reflexivity].
  rewrite (leb_true_ltb_false _ _ E) in H. discriminate.
Qed.

Lemma total_fields_bounds (app : ApplicationData.t) (e : ExtractedLabelData.t) :
  (5 <= List.length (Acc.fieldVerifications (collected app e)) <= 8)%nat.
Proof.
  rewrite collected_fields_are_compared. unfold fieldComparisons.
  destruct (mandatory_fields_added app e Acc.empty) as (l5 & F5 & B5).
  cbn beta in F5. set (a5 := producerStep app e _) in *.
  destruct (countryStep_adds app e a5) as (lc & Fc & Bc).
  destruct (vintageStep_adds app e (countryStep app e a5)) as (lv & Fv & Bv).
  destruct (appellationStep_adds app e (vintageStep app e (countryStep app e a5)))
    as (la & Fa & Ba).
  rewrite Fa, Fv, Fc, F5, !length_app.
  cbn [Acc.empty Acc.fieldVerifications List.length]. lia.
Qed.

(** X24: every rejected result carries at least one flagged issue. *)
Theorem rejected_is_always_flagged
        (app : ApplicationData.t) (e : ExtractedLabelData.t)
        (t : float) (id ts : jsstring) :
  let r := verifyLabel app e t id ts in
  VerificationResult.status r = rejected ->
  VerificationResult.flaggedIssues r <> [].
Proof.
  intros r H. subst r. unfold verifyLabel in *.
  cbn [VerificationResult.status VerificationResult.flaggedIssues] in *.
  set (wv := validateGovernmentWarningEnhanced e) in *.
  set (fvs := Acc.fieldVerifications (collected app e)) in *.
  set (oc := overallConfidenceOf e fvs) in *.
  destruct (WarningValidation.correct wv) eqn:C;
    [|now apply incorrect_warning_flag_collected].
  pose proof (criticalFailures_collected app e wv) as CF. fold fvs in CF.
  pose proof (enhanced_correct_present e C) as P.
  change (WarningValidation.present wv = true) in P.
  rewrite C, P in CF. cbn [negb andb] in CF.
  unfold determineStatus in H. cbv zeta in H. rewrite CF, C in H.
  cbn [existsb orb] in H. rewrite orb_false_r in H.
  destruct (FieldVerification.matches (alcoholVerification app e)) eqn:Ma.
  2:{ pose proof (alcohol_flag_collected app e Ma) as F.
      intros E. rewrite E in F. destruct F. }
  destruct (FieldVerification.matches (brandNameVerification app e)) eqn:Mb.
  2:{ cbn [negb andb orb] in H. rewrite orb_false_r in H.
      destruct (FieldVerification.confidence (brandNameVerification app e) <? 0.70)
        eqn:Lb.
      - pose proof (brand_flag_collected app e Mb (ltb_true_leb_false _ _ Lb)) as F.
        intros E. rewrite E in F. destruct F.
      - destruct (collected_summary app e)
          as (fl & rs & wfl & wrs & G & R & _ & U & _).
        assert (N : forallb FieldVerification.matches fvs = false).
        { destruct (collected_fields app e) as (v & rest & F & _).
          unfold fvs. rewrite F. cbn [forallb]. now rewrite Mb. }
        assert (Q : (matchedFieldsOf fvs =? List.length fvs)%nat = false).
        { apply Nat.eqb_neq. intros Q. apply filter_all in Q. congruence. }
        rewrite Q in H. cbn [andb] in H.
        destruct ((oc <? CONFIDENCE_THRESHOLDS.humanReviewThreshold)
                  || (0 <? List.length (Acc.humanReviewReasons (collected app e)))%nat)
          eqn:D; [discriminate|].
        apply orb_false_iff in D as [_ D].
        destruct (U N) as [X|X].
        + rewrite G. intros E. apply app_eq_nil in E as [E _]. contradiction.
        + rewrite R in D. destruct rs; [contradiction|discriminate]. }
  cbn [negb andb orb] in H.
  destruct (collected_summary app e) as (fl & rs & wfl & wrs & G & R & _ & U & _).
  destruct ((matchedFieldsOf fvs =? List.length fvs)%nat) eqn:Q.
  - apply Nat.eqb_eq in Q. cbn [andb] in H.
    pose proof (most_fields_when_all _ (total_fields_bounds app e)) as MF.
    fold fvs in MF. rewrite Q, MF in H.
    cbn [andb] in H. step_cases_in H.
  - cbn [andb] in H.
    destruct ((oc <? CONFIDENCE_THRESHOLDS.humanReviewThreshold)
              || (0 <? List.length (Acc.humanReviewReasons (collected app e)))%nat)
      eqn:D; [discriminate|].
    apply orb_false_iff in D as [_ D].
    assert (N : forallb FieldVerification.matches fvs = false).
    { destruct (forallb FieldVerification.matches fvs) eqn:A; [|reflexivity].
      apply filter_all in A. unfold matchedFieldsOf in Q.
      apply Nat.eqb_neq in Q. contradiction. }
    destruct (U N) as [X|X].
    + rewrite G. intros E. apply app_eq_nil in E as [E _]. contradiction.
    + rewrite R in D. destruct rs; [contradiction|discriminate].
Qed.

Lemma rejected_is_always_flagged_witness :
  VerificationResult.flaggedIssues
    (verifyLabel sampleApplication (sampleLabel None 0.95) 1000 [] [])
  <> [].
Proof.
  apply (rejected_is_always_flagged sampleApplication (sampleLabel None 0.95)
           1000 [] []).
  vm_compute. reflexivity.
Defined.
